(** * bulkCalendarEvents: a shallow embedding of [main.py]

    The script reads event rows from a spreadsheet, builds one calendar
    event per row and writes them to a calendar file.  This development
    embeds the script's functions over an explicit world (file system,
    clock, launched processes, console) and states the properties of the
    specification about them.

    Layout:
    - [Py]        Python values held by spreadsheet cells, [str], the
                  [datetime] module, [pathlib] suffixes;
    - [ICal]      the part of the icalendar package the script drives;
    - [Sys]       the world and the state-and-exception monad;
    - [BulkCal]   the functions of [main.py], in source order;
    - the theorems. *)

From Stdlib Require Import ZArith NArith String Ascii.
From stdpp Require Import base option list strings pretty gmap.

Local Open Scope string_scope.
Set Warnings "-register-all".

(* ===================================================================== *)
(** ** Python values                                                      *)
(* ===================================================================== *)

Module Py.

(** [datetime.date], [datetime.time], [datetime.datetime] and
    [datetime.timedelta].  The values openpyxl reads from a sheet and the
    value [datetime.now()] returns are naive (their [tzinfo] is [None]), so
    the records carry no time zone. *)
Record date := Date { d_year : N; d_month : N; d_day : N }.

Record time := Time { t_hour : N; t_minute : N; t_second : N; t_microsecond : N }.

Record datetime := DateTime {
  year : N; month : N; day : N;
  hour : N; minute : N; second : N; microsecond : N }.

Record timedelta := TimeDelta { td_days : Z; td_seconds : N; td_microseconds : N }.

(** The value of a spreadsheet cell ([cell.value]): openpyxl returns
    [None] for an empty cell, and [str], [int], [float], [bool],
    [datetime], [time] or [timedelta] otherwise; [date] is kept because
    [datetime.combine] accepts it.  A float is represented by its [repr]. *)
Inductive value :=
| VNone
| VStr (s : string)
| VInt (n : Z)
| VFloat (repr : string)
| VBool (b : bool)
| VDate (d : date)
| VTime (t : time)
| VDateTime (dt : datetime)
| VTimeDelta (td : timedelta).

#[global] Instance date_eq_dec : EqDecision date.
Proof. solve_decision. Defined.
#[global] Instance time_eq_dec : EqDecision time.
Proof. solve_decision. Defined.
#[global] Instance datetime_eq_dec : EqDecision datetime.
Proof. solve_decision. Defined.
#[global] Instance timedelta_eq_dec : EqDecision timedelta.
Proof. solve_decision. Defined.
#[global] Instance value_eq_dec : EqDecision value.
Proof. solve_decision. Defined.

(** Exceptions the script can end with. *)
Inductive exn :=
| StopIteration
| ValueError
| TypeError
| FileNotFoundError
| IsADirectoryError
| PermissionError
| InvalidFileException
| SystemExit (code : Z).

#[global] Instance exn_eq_dec : EqDecision exn.
Proof. solve_decision. Defined.

Inductive result (A : Type) :=
| Ok (a : A)
| Raise (e : exn).
Arguments Ok {A} a.
Arguments Raise {A} e.

(** *** Formatting *)

(** [s.rjust(width, "0")] for a string of digits: the ["%0<width>d"] of a
    non-negative number. *)
Fixpoint zeros (n : nat) : string :=
  match n with
  | O => ""
  | S n' => String "0" (zeros n')
  end.

Definition zfill (width : nat) (n : N) : string :=
  let s := pretty n in
  zeros (width - String.length s) +:+ s.

(** [date.isoformat()]: ["%04d-%02d-%02d"]. *)
Definition date_isoformat (y m d : N) : string :=
  zfill 4 y +:+ "-" +:+ zfill 2 m +:+ "-" +:+ zfill 2 d.

(** [time.isoformat()] of a naive time: ["%02d:%02d:%02d"], followed by
    [".%06d"] when the microsecond is not zero. *)
Definition time_isoformat (h mi s us : N) : string :=
  zfill 2 h +:+ ":" +:+ zfill 2 mi +:+ ":" +:+ zfill 2 s +:+
  (if (us =? 0)%N then "" else "." +:+ zfill 6 us).

(** [timedelta.__str__]. *)
Definition timedelta_str (td : timedelta) : string :=
  let mm := (td_seconds td / 60)%N in
  let ss := (td_seconds td mod 60)%N in
  let hh := (mm / 60)%N in
  let mm := (mm mod 60)%N in
  let s := pretty hh +:+ ":" +:+ zfill 2 mm +:+ ":" +:+ zfill 2 ss in
  let s :=
    if (td_days td =? 0)%Z then s
    else pretty (td_days td) +:+ " day" +:+
         (if (Z.abs (td_days td) =? 1)%Z then "" else "s") +:+ ", " +:+ s in
  if (td_microseconds td =? 0)%N then s
  else s +:+ "." +:+ zfill 6 (td_microseconds td).

(** [str(v)]. *)
Definition str (v : value) : string :=
  match v with
  | VNone => "None"
  | VStr s => s
  | VInt n => pretty n
  | VFloat r => r
  | VBool b => if b then "True" else "False"
  | VDate d => date_isoformat (d_year d) (d_month d) (d_day d)
  | VTime t => time_isoformat (t_hour t) (t_minute t) (t_second t) (t_microsecond t)
  | VDateTime dt =>
      date_isoformat (year dt) (month dt) (day dt) +:+ " " +:+
      time_isoformat (hour dt) (minute dt) (second dt) (microsecond dt)
  | VTimeDelta td => timedelta_str td
  end.

(** *** datetime.combine *)

(** [isinstance(v, date)]: a [datetime] is a [date]. *)
Definition as_date (v : value) : option date :=
  match v with
  | VDate d => Some d
  | VDateTime dt => Some (Date (year dt) (month dt) (day dt))
  | _ => None
  end.

(** [isinstance(v, time)]. *)
Definition as_time (v : value) : option time :=
  match v with
  | VTime t => Some t
  | _ => None
  end.

(** [datetime.combine(date, time)]: both arguments are type-checked, then
    the fields are copied into a new [datetime]; the time fields of a
    [datetime] passed as [date] are ignored. *)
Definition combine (date time : value) : result datetime :=
  match as_date date with
  | None => Raise TypeError
  | Some d =>
      match as_time time with
      | None => Raise TypeError
      | Some t =>
          Ok (DateTime (d_year d) (d_month d) (d_day d)
                (t_hour t) (t_minute t) (t_second t) (t_microsecond t))
      end
  end.

(** Order of naive times and datetimes: lexicographic on the fields, the
    way Python compares them. *)
Definition time_key (t : time) : list N :=
  [t_hour t; t_minute t; t_second t; t_microsecond t].

Definition datetime_key (dt : datetime) : list N :=
  [year dt; month dt; day dt; hour dt; minute dt; second dt; microsecond dt].

Fixpoint lex_ltb (a b : list N) : bool :=
  match a, b with
  | x :: a', y :: b' => (x <? y)%N || ((x =? y)%N && lex_ltb a' b')
  | [], _ :: _ => true
  | _, _ => false
  end.

Definition time_ltb (a b : time) : bool := lex_ltb (time_key a) (time_key b).
Definition datetime_ltb (a b : datetime) : bool :=
  lex_ltb (datetime_key a) (datetime_key b).

(** [datetime.date()] and [datetime.time()]. *)
Definition date_of (dt : datetime) : date := Date (year dt) (month dt) (day dt).
Definition time_of (dt : datetime) : time :=
  Time (hour dt) (minute dt) (second dt) (microsecond dt).

(** *** str.lower, str.upper and pathlib suffixes *)

Definition lower_ascii (c : ascii) : ascii :=
  let n := nat_of_ascii c in
  if (65 <=? n)%nat && (n <=? 90)%nat then ascii_of_nat (n + 32) else c.

Definition upper_ascii (c : ascii) : ascii :=
  let n := nat_of_ascii c in
  if (97 <=? n)%nat && (n <=? 122)%nat then ascii_of_nat (n - 32) else c.

Fixpoint map_string (f : ascii -> ascii) (s : string) : string :=
  match s with
  | EmptyString => EmptyString
  | String c s' => String (f c) (map_string f s')
  end.

(** [s.lower()] and [s.upper()] on ASCII.  A string is a sequence of
    bytes here and bytes above 127 are left alone, whereas Python also
    changes the case of letters outside ASCII.  No character outside
    ASCII lowers to a letter of [".xlsx"] or [".ics"], so the comparisons
    with these two suffixes come out as in Python; the lower-case text
    itself is Python's for ASCII strings only. *)
Definition lower (s : string) : string := map_string lower_ascii s.
Definition upper (s : string) : string := map_string upper_ascii s.

(** [s.split("/")]. *)
Fixpoint split_slash (s : string) : list string :=
  match s with
  | EmptyString => [EmptyString]
  | String c s' =>
      if Ascii.eqb c "/" then EmptyString :: split_slash s'
      else match split_slash s' with
           | x :: xs => String c x :: xs
           | [] => [String c EmptyString]
           end
  end.

(** [PurePosixPath(s).name]: the last component, once empty and ["."]
    components are dropped; [""] when none is left. *)
Definition name (s : string) : string :=
  List.last
    (List.filter (fun x => negb (String.eqb x "") && negb (String.eqb x "."))
       (split_slash s))
    "".

(** [s.rfind(".")]. *)
Fixpoint rfind_dot (s : string) : option nat :=
  match s with
  | EmptyString => None
  | String c s' =>
      match rfind_dot s' with
      | Some i => Some (S i)
      | None => if Ascii.eqb c "." then Some O else None
      end
  end.

(** [PurePath.suffix]: [name[i:]] for [i = name.rfind(".")] when
    [0 < i < len(name) - 1], and [""] otherwise. *)
Definition suffix (p : string) : string :=
  let n := name p in
  match rfind_dot n with
  | Some i =>
      if (0 <? i)%nat && (i <? String.length n - 1)%nat
      then String.substring i (String.length n - i) n
      else ""
  | None => ""
  end.

End Py.

Import Py.

(* ===================================================================== *)
(** ** The icalendar package, as far as the script drives it              *)
(* ===================================================================== *)

Module ICal.

(** Property values: [vText] is a [str], [vDDDTypes] wraps a date or time
    value; [utc] records that the package attached UTC to a naive
    datetime.  [vCoerced v] stands for what the package makes of a value
    [v] that is neither a string nor [None] when it is added under a text
    property: the releases differ (the text [str(v)] in some, a typed
    value in others) and the script pins none, so the result is left
    open. *)
Inductive prop :=
| vText (s : string)
| vDDDTypes (v : value) (utc : bool)
| vCoerced (v : value).

(** A component is a case-insensitive ordered dictionary of properties
    (keys are stored upper-case, in insertion order, each with the values
    added under it) and a list of subcomponents. *)
Inductive Component := MkComponent {
  c_name : string;
  c_props : list (string * list prop);
  subcomponents : list Component }.

(** [Event()] and [Calendar()]. *)
Definition Event : Component := MkComponent "VEVENT" [] [].
Definition Calendar : Component := MkComponent "VCALENDAR" [] [].

Fixpoint lookup_key (k : string) (ps : list (string * list prop)) : option (list prop) :=
  match ps with
  | [] => None
  | (k', v) :: ps' => if String.eqb k k' then Some v else lookup_key k ps'
  end.

(** [c.get(name)]. *)
Definition get (name : string) (c : Component) : option (list prop) :=
  lookup_key (upper name) (c_props c).

(** [name in c]. *)
Definition contains (name : string) (c : Component) : bool :=
  match get name c with Some _ => true | None => false end.

Fixpoint set_key (k : string) (v : list prop) (ps : list (string * list prop))
  : list (string * list prop) :=
  match ps with
  | [] => [(k, v)]
  | (k', v') :: ps' =>
      if String.eqb k k' then (k, v) :: ps' else (k', v') :: set_key k v ps'
  end.

(** [c[name] = p]. *)
Definition setitem (name : string) (p : prop) (c : Component) : Component :=
  MkComponent (c_name c) (set_key (upper name) [p] (c_props c)) (subcomponents c).

(** The value type the package's table gives a property name; names the
    table does not list are text.  Only the rows for the names used by
    the script are reproduced. *)
Inductive kind := KText | KDateTime.

Definition for_property (name : string) : kind :=
  let n := lower name in
  if String.eqb n "dtstart" || String.eqb n "dtend" || String.eqb n "dtstamp"
  then KDateTime else KText.

(** The value stored for [v] under a text property: a string as it is,
    [None] as the text ["None"], any other value as the package converts
    it. *)
Definition text_prop (v : value) : prop :=
  match v with
  | VStr s => vText s
  | VNone => vText "None"
  | _ => vCoerced v
  end.

(** [Component.add(name, value)].  A naive datetime added as DTSTAMP is
    taken to be UTC.  The value is then converted by the property's type:
    a text property stores [text_prop value], and [vDDDTypes(value)]
    raises [ValueError] unless the value is a date, time, datetime or
    timedelta.  A second value under a name that is present is appended
    to the first. *)
Definition encode (name : string) (v : value) : result prop :=
  match for_property name with
  | KText => Ok (text_prop v)
  | KDateTime =>
      match v with
      | VDateTime _ => Ok (vDDDTypes v (String.eqb (lower name) "dtstamp"))
      | VDate _ | VTime _ | VTimeDelta _ => Ok (vDDDTypes v false)
      | _ => Raise ValueError
      end
  end.

Definition add (name : string) (v : value) (c : Component) : result Component :=
  match encode name v with
  | Raise e => Raise e
  | Ok p =>
      let old := default [] (get name c) in
      Ok (MkComponent (c_name c) (set_key (upper name) (old ++ [p]) (c_props c))
            (subcomponents c))
  end.

(** [c.add_component(sub)]. *)
Definition add_component (sub : Component) (c : Component) : Component :=
  MkComponent (c_name c) (c_props c) (subcomponents c ++ [sub]).

(** *** Serialization *)

(** The content lines of a document: [BEGIN:name], [key:value] and
    [END:name].  The byte encoding of the values (escaping, folding) is
    the package's and is not modelled. *)
Inductive line :=
| LBegin (n : string)
| LProp (k : string) (p : prop)
| LEnd (n : string).

(** The order in which a component's properties are written: the names of
    its class's [canonical_order] first, the others sorted after them. *)
Definition canonical_order (cname : string) : list string :=
  if String.eqb cname "VEVENT" then
    ["SUMMARY"; "DTSTART"; "DTEND"; "DURATION"; "DTSTAMP"; "UID";
     "RECURRENCE-ID"; "SEQUENCE"; "RRULE"; "RDATE"; "EXDATE"]
  else if String.eqb cname "VCALENDAR" then
    ["VERSION"; "PRODID"; "CALSCALE"; "METHOD"]
  else [].

Definition mem (k : string) (l : list string) : bool :=
  existsb (String.eqb k) l.

Fixpoint insert_sorted (k : string) (l : list string) : list string :=
  match l with
  | [] => [k]
  | x :: l' => if String.leb k x then k :: l else x :: insert_sorted k l'
  end.

Definition sorted (l : list string) : list string :=
  fold_right insert_sorted [] l.

Definition canonsort_keys (keys order : list string) : list string :=
  List.filter (fun k => mem k keys) order ++
  sorted (List.filter (fun k => negb (mem k order)) keys).

Definition sorted_keys (cname : string) (ps : list (string * list prop)) : list string :=
  canonsort_keys (map fst ps) (canonical_order cname).

Definition property_lines (cname : string) (ps : list (string * list prop)) : list line :=
  flat_map (fun k => map (LProp k) (default [] (lookup_key k ps))) (sorted_keys cname ps).

(** [c.property_items()]: BEGIN, the properties, the subcomponents in
    order, END. *)
Fixpoint property_items (c : Component) : list line :=
  match c with
  | MkComponent n ps subs =>
      LBegin n :: property_lines n ps ++ flat_map property_items subs ++ [LEnd n]
  end.

(** [c.to_ical()]. *)
Definition to_ical (c : Component) : list line := property_items c.

(** The number of components named [n] a document holds: its [BEGIN:n]
    lines. *)
Definition begins (n : string) (l : line) : bool :=
  match l with
  | LBegin m => String.eqb m n
  | _ => false
  end.

Definition count_components (n : string) (doc : list line) : nat :=
  length (List.filter (begins n) doc).

(** The values a run of lines gives under the key [k]. *)
Definition field (k : string) (doc : list line) : list prop :=
  flat_map (fun l => match l with
                     | LProp k' p => if String.eqb k' k then [p] else []
                     | _ => []
                     end) doc.

End ICal.

Import ICal.

(* ===================================================================== *)
(** ** The world: files, clock, processes, console                        *)
(* ===================================================================== *)

Module Sys.

(** What a path of the file system holds: a directory, a workbook (the
    rows of its active sheet, each a list of cell values), a calendar
    document, or any other file. *)
Inductive node :=
| Dir
| Xlsx (sheet : list (list value))
| Ics (doc : list line)
| Other.

#[global] Instance node_is_dir_dec (n : node) : Decision (n = Dir).
Proof. destruct n; [left | right | right | right]; congruence. Defined.

(** Paths are compared as strings: two spellings of one file are two
    keys.  [console] is what the script prints itself, through the
    argument parser and through [input]; the records of the [logging]
    module go to the log stream, which is not part of the world. *)
Record World := MkWorld {
  fs : gmap string node;
  ticks : nat;
  launched : list (list string);
  console : list string }.

(** Computations that read and change the world and may raise. *)
Definition M (A : Type) : Type := World -> result A * World.

#[global] Instance M_ret : MRet M := fun A a w => (Ok a, w).
#[global] Instance M_bind : MBind M := fun A B f m w =>
  match m w with
  | (Ok a, w') => f a w'
  | (Raise e, w') => (Raise e, w')
  end.

Definition raise {A} (e : exn) : M A := fun w => (Raise e, w).

Definition lift {A} (r : result A) : M A := fun w => (r, w).

Definition set_fs (f : gmap string node -> gmap string node) (w : World) : World :=
  MkWorld (f (fs w)) (ticks w) (launched w) (console w).

(** [open(p, "wb")] followed by a write, and [workbook.save(p)]: the file
    is created or replaced; a directory cannot be opened for writing.
    This is the one cause of failure that shows in the files as they are
    modelled; a missing parent directory, a denied permission or a full
    disk are not represented, so a statement that a write succeeds is
    made under the assumption that none of them occurs. *)
Definition write_file (p : string) (n : node) : M unit := fun w =>
  match fs w !! p with
  | Some Dir => (Raise IsADirectoryError, w)
  | _ => (Ok tt, set_fs (insert p n) w)
  end.

(** [p.exists()]. *)
Definition exists_ (p : string) : M bool := fun w =>
  (Ok (match fs w !! p with Some _ => true | None => false end), w).

(** [p.unlink()]. *)
Definition unlink (p : string) : M unit := fun w =>
  match fs w !! p with
  | None => (Raise FileNotFoundError, w)
  | Some Dir => (Raise PermissionError, w)
  | Some _ => (Ok tt, set_fs (delete p) w)
  end.

(** [subprocess.call(cmd)]: the command is started and waited for; its
    effect on the world is outside the model. *)
Definition call (cmd : list string) : M unit := fun w =>
  (Ok tt, MkWorld (fs w) (ticks w) (launched w ++ [cmd]) (console w)).

(** Writing a message to the terminal. *)
Definition print (msg : string) : M unit := fun w =>
  (Ok tt, MkWorld (fs w) (ticks w) (launched w) (console w ++ [msg])).

End Sys.

Import Sys.

(* ===================================================================== *)
(** ** main.py                                                            *)
(* ===================================================================== *)

Module BulkCal.

Definition __version__ : string := "0.1.0".

(** The command line after argparse has split it into option occurrences,
    in the order they were typed: [-h]/[--help], [--version], [--debug],
    [--file]/[-f] with its value, [--output]/[-o] with its value, and
    anything the parser does not know. *)
Inductive arg :=
| Help
| Version
| Debug
| File (s : string)
| Output (s : string)
| Unrecognized (s : string).

(** The namespace [parse_args] returns. *)
Record Namespace := MkNamespace {
  debug : bool;
  file : option string;
  output : string }.

(** What a [type=] function of the parser answers. *)
Inductive typed (A : Type) :=
| Accept (a : A)
| ArgumentTypeError (msg : string).
Arguments Accept {A} a.
Arguments ArgumentTypeError {A} msg.

(** How parsing ends: with a namespace, or with the exit the parser
    performs itself (status 0 after the help or version text, status 2
    after an error message). *)
Inductive parsed :=
| Parsed (ns : Namespace)
| Exit (code : Z) (msg : string).

Section Script.

(** The directory of the script ([pathlib.Path(__file__).parent]), the
    clock read by [datetime.now()] (the n-th reading of a run), and what
    the user does to the files while the script waits at its prompt. *)
Variable script_dir : string.
Variable clock : nat -> datetime.
Variable user : gmap string node -> gmap string node.

(** [pathlib.Path(__file__).parent / name]. *)
Definition in_script_dir (name : string) : string := script_dir +:+ "/" +:+ name.

(** [datetime.now()]. *)
Definition now : M datetime := fun w =>
  (Ok (clock (ticks w)),
   MkWorld (fs w) (S (ticks w)) (launched w) (console w)).

(** [input(prompt)]: the prompt is shown and the script blocks until the
    user presses RETURN; meanwhile the user edits files. *)
Definition input (prompt : string) : M unit := fun w =>
  (Ok tt, MkWorld (user (fs w)) (ticks w) (launched w) (console w ++ [prompt])).

(** [openpyxl.load_workbook(filename)] and the rows of the active sheet.
    A sheet read from a file is [rectangular]: openpyxl fills short rows
    up with empty cells.  The rows are handed over as they are stored,
    so a stored sheet is meant to be rectangular already. *)
Definition load_workbook (filename : string) : M (list (list value)) := fun w =>
  match fs w !! filename with
  | None => (Raise FileNotFoundError, w)
  | Some Dir => (Raise IsADirectoryError, w)
  | Some (Xlsx sheet) => (Ok sheet, w)
  | Some _ => (Raise InvalidFileException, w)
  end.

(** *** create_event_file *)

Definition headers : list value :=
  [VStr "Title"; VStr "Description"; VStr "Date"; VStr "Start time";
   VStr "End time"; VStr "Location"].

Definition create_event_file : M string :=
  let filename := in_script_dir "events.xlsx" in
  let sheet := List.app [] [headers] in
  write_file filename (Xlsx sheet);;
  call ["open"; "-a"; "/Applications/Microsoft Excel.app"; filename];;
  input "Add events to the file, save it and press RETURN to continue...";;
  mret filename.

(** *** create_calendar_event *)

Definition create_calendar_event (title description : value)
    (start_dt end_dt : datetime) (location : value) : M Component :=
  let ev := Event in
  ev ← lift (add "summary" title ev);
  ev ← lift (add "description" description ev);
  ev ← lift (add "dtstart" (VDateTime start_dt) ev);
  ev ← lift (add "dtend" (VDateTime end_dt) ev);
  stamp ← now;
  ev ← lift (add "dtstamp" (VDateTime stamp) ev);
  match location with
  | VNone => mret ev
  | _ => mret (setitem "location" (vText (str location)) ev)
  end.

(** *** load_events *)

(** The body of the loop over the rows: a row is unpacked into six cells
    ([ValueError] otherwise) and turned into an event. *)
Definition load_row (row : list value) : M Component :=
  match row with
  | [title_cell; description_cell; date_cell; start_time_cell; end_time_cell;
     location_cell] =>
      let title := title_cell in
      let description := description_cell in
      let location := VStr (str location_cell) in
      let date := date_cell in
      let start_time := start_time_cell in
      let end_time := end_time_cell in
      start_dt ← lift (combine date start_time);
      end_dt ← lift (combine date end_time);
      create_calendar_event title description start_dt end_dt location
  | _ => raise ValueError
  end.

Fixpoint load_rows (rows : list (list value)) (events : list Component)
  : M (list Component) :=
  match rows with
  | [] => mret events
  | row :: rows' =>
      ev ← load_row row;
      load_rows rows' (List.app events [ev])
  end.

Definition load_events (filename : string) : M (list Component) :=
  let events := [] in
  sheet ← load_workbook filename;
  match sheet with
  | [] => raise StopIteration
  | _header :: rows => load_rows rows events
  end.

(** *** delete_temporary_files *)

Definition delete_temporary_files : M unit :=
  let events_file := in_script_dir "events.xlsx" in
  b ← exists_ events_file;
  if b : bool then unlink events_file else mret tt.

(** *** export_ics *)

Definition export_ics (events : list Component) (filename : string) : M unit :=
  let cal := fold_left (fun cal ev => add_component ev cal) events Calendar in
  write_file filename (Ics (to_ical cal)).

(** *** parse_args *)

(** The two [type=] functions.  The accepted path is kept as it was
    typed; [pathlib.Path] would also tidy its spelling (doubled slashes,
    [.] components, a trailing slash), which changes neither its suffix
    nor the file it names. *)
Definition ics_file (s : string) : typed string :=
  let p := s in
  let ext := lower (suffix p) in
  if negb (String.eqb ext ".ics")
  then ArgumentTypeError ("File must be a Calendar file (.ics), but got " +:+ ext)
  else Accept p.

Definition xlsx_file (s : string) : typed string :=
  let p := s in
  let ext := lower (suffix p) in
  if negb (String.eqb ext ".xlsx")
  then ArgumentTypeError ("File must be an Excel spreadsheet (.xlsx), but got " +:+ ext)
  else Accept p.

(** The parser consumes the options from left to right; the value of an
    option is converted, and its action run, when the option is reached.
    The help and version actions exit at once; a conversion error exits
    with status 2; unknown arguments are set aside and reported once
    everything else has been consumed.  The messages are cut short: the
    help text is reduced to its first words, and an error message to
    what follows the usage line and the program name. *)
Fixpoint parse_known_args (argv : list arg) (ns : Namespace) (extras : list string)
  : parsed :=
  match argv with
  | [] =>
      match extras with
      | [] => Parsed ns
      | _ => Exit 2 ("unrecognized arguments: " +:+ String.concat " " extras)
      end
  | Help :: _ => Exit 0 "usage: bulkcal"
  | Version :: _ => Exit 0 ("Bulk Calendar Events " +:+ __version__)
  | Debug :: argv' =>
      parse_known_args argv' (MkNamespace true (file ns) (output ns)) extras
  | File s :: argv' =>
      match xlsx_file s with
      | ArgumentTypeError msg => Exit 2 ("argument --file/-f: " +:+ msg)
      | Accept p =>
          parse_known_args argv' (MkNamespace (debug ns) (Some p) (output ns)) extras
      end
  | Output s :: argv' =>
      match ics_file s with
      | ArgumentTypeError msg => Exit 2 ("argument --output/-o: " +:+ msg)
      | Accept p =>
          parse_known_args argv' (MkNamespace (debug ns) (file ns) p) extras
      end
  | Unrecognized s :: argv' => parse_known_args argv' ns (extras ++ [s])
  end.

Definition parse_args (argv : list arg) : parsed :=
  parse_known_args argv (MkNamespace false None (in_script_dir "output.ics")) [].

(** *** setup_logging *)

(** The logging level chosen and returned: DEBUG is 10, INFO is 20.  The
    log records written here, in [create_event_file] and in [export_ics]
    go to the log stream and touch nothing else; the log stream is not
    part of the world. *)
Definition setup_logging (args : Namespace) : Z :=
  if debug args then 10%Z else 20%Z.

(** *** main *)

Definition main (argv : list arg) : M unit :=
  match parse_args argv with
  | Exit code msg => print msg;; raise (SystemExit code)
  | Parsed args =>
      let _ := setup_logging args in
      file ← match file args with
             | None => create_event_file
             | Some f => mret f
             end;
      events ← load_events file;
      export_ics events (output args);;
      delete_temporary_files;;
      call ["open"; "-R"; output args]
  end.

End Script.

End BulkCal.

Import BulkCal.

(* ===================================================================== *)
(** ** Vocabulary of the statements                                       *)
(* ===================================================================== *)

(** The world after [n] more readings of the clock. *)
Definition advance (n : nat) (w : World) : World :=
  MkWorld (fs w) (n + ticks w) (launched w) (console w).

(** A valid data row: six cells, a date in the third, a time of day in the
    fourth and in the fifth. *)
Definition valid_row (row : list value) : bool :=
  match row with
  | [_; _; date_cell; start_time_cell; end_time_cell; _] =>
      match as_date date_cell, as_time start_time_cell, as_time end_time_cell with
      | Some _, Some _, Some _ => true
      | _, _, _ => false
      end
  | _ => false
  end.

(** A six-cell row whose date cell holds no date, or whose start-time or
    end-time cell holds no time of day (an empty cell holds neither). *)
Definition bad_date_or_time (row : list value) : bool :=
  match row with
  | [_; _; date_cell; start_time_cell; end_time_cell; _] =>
      match as_date date_cell, as_time start_time_cell, as_time end_time_cell with
      | Some _, Some _, Some _ => false
      | _, _, _ => true
      end
  | _ => false
  end.

(** The component [create_calendar_event] returns for a location that is
    a string. *)
Definition event_of (stamp : datetime) (title description : value)
    (start_dt end_dt : datetime) (location : string) : Component :=
  MkComponent "VEVENT"
    [("SUMMARY", [text_prop title]);
     ("DESCRIPTION", [text_prop description]);
     ("DTSTART", [vDDDTypes (VDateTime start_dt) false]);
     ("DTEND", [vDDDTypes (VDateTime end_dt) false]);
     ("DTSTAMP", [vDDDTypes (VDateTime stamp) true]);
     ("LOCATION", [vText location])]
    [].

(** [load_events] followed by [export_ics], as [main] chains them. *)
Definition load_and_export (clock : nat -> datetime) (filename out : string) : M unit :=
  events ← load_events clock filename;
  export_ics events out.




(** A sheet as openpyxl hands it over: every row has as many cells as the
    first one (short rows are filled up with empty cells on reading). *)
Definition rectangular (sheet : list (list value)) : Prop :=
  match sheet with
  | [] => True
  | header :: rows => Forall (fun row => length row = length header) rows
  end.

(** A cell that holds text or nothing. *)
Definition textual (v : value) : bool :=
  match v with
  | VNone | VStr _ => true
  | _ => false
  end.

(** The string holds no occurrence of the character. *)
Fixpoint lacks (c : ascii) (s : string) : bool :=
  match s with
  | EmptyString => true
  | String x s' => negb (Ascii.eqb x c) && lacks c s'
  end.

(** The directory part a path is written with: none, or a directory
    followed by a slash. *)
Definition dir_prefix (dir : option string) : string :=
  match dir with
  | None => ""
  | Some d => d +:+ "/"
  end.

(** The invariant of the namespaces [parse_args] returns. *)
Definition well_typed (ns : Namespace) : Prop :=
  lower (suffix (output ns)) = ".ics" /\
  forall f, file ns = Some f -> lower (suffix f) = ".xlsx".

(** Sample data for the closed statements. *)
Module Sample.

Definition clock (n : nat) : datetime := DateTime 2024 4 30 12 0 (N.of_nat n) 0.

Definition standup : list value :=
  [VStr "Standup"; VStr "Daily sync"; VDateTime (DateTime 2024 5 1 0 0 0 0);
   VTime (Time 9 0 0 0); VTime (Time 9 15 0 0); VStr "Room A"].

(** A row that ends before it starts. *)
Definition backwards : list value :=
  [VStr "Retro"; VStr "Looking back"; VDate (Date 2024 5 2);
   VTime (Time 17 0 0 0); VTime (Time 16 30 0 0); VStr "Room B"].

(** A row whose three text cells are empty. *)
Definition blank_texts : list value :=
  [VNone; VNone; VDateTime (DateTime 2024 5 3 0 0 0 0);
   VTime (Time 10 0 0 0); VTime (Time 11 0 0 0); VNone].

(** A row whose location cell alone is empty. *)
Definition no_location : list value :=
  [VStr "Standup"; VStr "Daily sync"; VDateTime (DateTime 2024 5 1 0 0 0 0);
   VTime (Time 9 0 0 0); VTime (Time 9 15 0 0); VNone].

(** A row whose date cell is empty. *)
Definition no_date : list value :=
  [VStr "Standup"; VStr "Daily sync"; VNone;
   VTime (Time 9 0 0 0); VTime (Time 9 15 0 0); VStr "Room A"].

Definition world (files : list (string * node)) : World :=
  MkWorld (list_to_map files) 0 [] [].

(** A workbook of two rows at [/d/in.xlsx]. *)
Definition two_rows : World :=
  world [("/d/in.xlsx", Xlsx [headers; standup; backwards])].

(** The user fills the template with one row and saves it. *)
Definition adds_standup (files : gmap string node) : gmap string node :=
  <["/app/events.xlsx" := Xlsx [headers; standup]]> files.

End Sample.

(* ===================================================================== *)
(** ** Lemmas on the monad and the loop body                              *)
(* ===================================================================== *)

Lemma advance_0 w : advance 0 w = w.
Proof. by destruct w. Qed.

Lemma advance_advance n m w : advance n (advance m w) = advance (n + m) w.
Proof. unfold advance; simpl. f_equal. lia. Qed.

Lemma bind_Ok {A B} (m : M A) (f : A -> M B) w a w' :
  m w = (Ok a, w') -> (m ≫= f) w = f a w'.
Proof. intros H. unfold mbind, M_bind. by rewrite H. Qed.

Lemma bind_Raise {A B} (m : M A) (f : A -> M B) w e w' :
  m w = (Raise e, w') -> (m ≫= f) w = (Raise e, w').
Proof. intros H. unfold mbind, M_bind. by rewrite H. Qed.

Lemma bind_Ok_inv {A B} (m : M A) (f : A -> M B) w b w' :
  (m ≫= f) w = (Ok b, w') ->
  exists a w1, m w = (Ok a, w1) /\ f a w1 = (Ok b, w').
Proof.
  unfold mbind, M_bind. destruct (m w) as [[a|e] w1]; intros H.
  - by exists a, w1.
  - discriminate.
Qed.

(** [create_calendar_event] with a string location reads the clock once
    and cannot fail. *)
Lemma create_calendar_event_str clock title description start_dt end_dt l w :
  create_calendar_event clock title description start_dt end_dt (VStr l) w
  = (Ok (event_of (clock (ticks w)) title description start_dt end_dt l),
     advance 1 w).
Proof. reflexivity. Qed.

(** The loop body on a six-cell row with a date and two times. *)
Lemma load_row_ok clock c1 c2 c3 c4 c5 c6 d t1 t2 w :
  as_date c3 = Some d -> as_time c4 = Some t1 -> as_time c5 = Some t2 ->
  load_row clock [c1; c2; c3; c4; c5; c6] w
  = (Ok (event_of (clock (ticks w)) c1 c2
           (DateTime (d_year d) (d_month d) (d_day d)
              (t_hour t1) (t_minute t1) (t_second t1) (t_microsecond t1))
           (DateTime (d_year d) (d_month d) (d_day d)
              (t_hour t2) (t_minute t2) (t_second t2) (t_microsecond t2))
           (str c6)),
     advance 1 w).
Proof.
  intros Hd H1 H2. unfold load_row, combine. rewrite Hd, H1, H2.
  reflexivity.
Qed.

(** The loop body fails on every other row, and leaves the world as it
    was. *)
Lemma load_row_bad clock row w :
  length row = 6%nat -> bad_date_or_time row = true ->
  load_row clock row w = (Raise TypeError, w).
Proof.
  intros Hlen Hbad.
  destruct row as [|c1 [|c2 [|c3 [|c4 [|c5 [|c6 [|c7 row]]]]]]]; try discriminate.
  unfold load_row, combine. simpl in Hbad.
  destruct (as_date c3) as [d|]; [|reflexivity].
  destruct (as_time c4) as [t1|]; [|reflexivity].
  destruct (as_time c5) as [t2|]; [discriminate|reflexivity].
Qed.

Lemma load_row_valid clock row w :
  valid_row row = true ->
  exists ev, load_row clock row w = (Ok ev, advance 1 w).
Proof.
  intros Hv.
  destruct row as [|c1 [|c2 [|c3 [|c4 [|c5 [|c6 [|c7 row]]]]]]]; try discriminate.
  simpl in Hv.
  destruct (as_date c3) as [d|] eqn:Hd; [|discriminate].
  destruct (as_time c4) as [t1|] eqn:H1; [|discriminate].
  destruct (as_time c5) as [t2|] eqn:H2; [|discriminate].
  eexists. by apply load_row_ok.
Qed.

(** What a successful run of the loop body tells about its row. *)
Lemma load_row_Ok_inv clock row w ev w' :
  load_row clock row w = (Ok ev, w') ->
  exists c1 c2 c3 c4 c5 c6 d t1 t2,
    row = [c1; c2; c3; c4; c5; c6] /\
    as_date c3 = Some d /\ as_time c4 = Some t1 /\ as_time c5 = Some t2 /\
    w' = advance 1 w /\
    ev = event_of (clock (ticks w)) c1 c2
           (DateTime (d_year d) (d_month d) (d_day d)
              (t_hour t1) (t_minute t1) (t_second t1) (t_microsecond t1))
           (DateTime (d_year d) (d_month d) (d_day d)
              (t_hour t2) (t_minute t2) (t_second t2) (t_microsecond t2))
           (str c6).
Proof.
  intros H.
  destruct row as [|c1 [|c2 [|c3 [|c4 [|c5 [|c6 [|c7 row]]]]]]]; try discriminate.
  destruct (as_date c3) as [d|] eqn:Hd;
    [|unfold load_row, combine in H; rewrite Hd in H; discriminate].
  destruct (as_time c4) as [t1|] eqn:H1;
    [|unfold load_row, combine in H; rewrite Hd, H1 in H; discriminate].
  destruct (as_time c5) as [t2|] eqn:H2;
    [|unfold load_row, combine in H; rewrite Hd, H1, H2 in H; discriminate].
  rewrite (load_row_ok _ _ _ _ _ _ _ _ _ _ _ Hd H1 H2) in H.
  injection H as <- <-.
  exists c1, c2, c3, c4, c5, c6, d, t1, t2. repeat split; done.
Qed.

(* ===================================================================== *)
(** ** Lemmas on the loop over the rows                                   *)
(* ===================================================================== *)

Lemma load_rows_Ok_inv clock rows : forall acc w events w',
  load_rows clock rows acc w = (Ok events, w') ->
  w' = advance (length rows) w /\
  exists new,
    events = List.app acc new /\ length new = length rows /\
    forall (i : nat) row, rows !! i = Some row ->
      exists ev, new !! i = Some ev /\
        load_row clock row (advance i w) = (Ok ev, advance (S i) w).
Proof.
  induction rows as [|row rows IH]; intros acc w events w' H.
  - injection H as <- <-. split; [by rewrite advance_0|].
    exists []. split; [by rewrite app_nil_r|]. split; [done|].
    intros i r Hi. by rewrite lookup_nil in Hi.
  - simpl in H. apply bind_Ok_inv in H as (ev & w1 & Hrow & Hrest).
    pose proof (load_row_Ok_inv _ _ _ _ _ Hrow) as Hinv.
    destruct Hinv as (? & ? & ? & ? & ? & ? & ? & ? & ? & _ & _ & _ & _ & -> & _).
    apply IH in Hrest as (-> & new & -> & Hlen & Hnth).
    split.
    { rewrite advance_advance. simpl. f_equal. lia. }
    exists (ev :: new). split; [by rewrite <- app_assoc|].
    split; [simpl; by rewrite Hlen|].
    intros [|i] r Hi; simpl in Hi.
    + injection Hi as <-. exists ev. split; [done|]. by rewrite advance_0.
    + apply Hnth in Hi as (ev' & Hev' & Hrun). exists ev'. split; [done|].
      rewrite !advance_advance in Hrun.
      replace (i + 1)%nat with (S i) in Hrun by lia.
      by replace (S i + 1)%nat with (S (S i)) in Hrun by lia.
Qed.

Lemma load_rows_valid clock rows : forall acc w,
  Forall (fun row => valid_row row = true) rows ->
  exists events, load_rows clock rows acc w = (Ok events, advance (length rows) w).
Proof.
  induction rows as [|row rows IH]; intros acc w Hall.
  - exists acc. simpl. by rewrite advance_0.
  - apply Forall_cons in Hall as [Hrow Hall].
    destruct (load_row_valid clock row w Hrow) as [ev Hev].
    destruct (IH (List.app acc [ev]) (advance 1 w) Hall) as [events Hevents].
    exists events. simpl. rewrite (bind_Ok _ _ _ _ _ Hev), Hevents.
    rewrite advance_advance. do 2 f_equal. lia.
Qed.

Lemma not_bad_valid row :
  length row = 6%nat -> bad_date_or_time row = false -> valid_row row = true.
Proof.
  intros Hlen.
  destruct row as [|c1 [|c2 [|c3 [|c4 [|c5 [|c6 [|c7 row]]]]]]]; try discriminate.
  simpl. by destruct (as_date c3), (as_time c4), (as_time c5).
Qed.

Lemma load_rows_bad clock rows : forall acc w,
  Forall (fun row => length row = 6%nat) rows ->
  Exists (fun row => bad_date_or_time row = true) rows ->
  exists w', load_rows clock rows acc w = (Raise TypeError, w') /\ fs w' = fs w.
Proof.
  induction rows as [|row rows IH]; intros acc w Hlen Hbad.
  - by apply Exists_nil in Hbad.
  - apply Forall_cons in Hlen as [Hrow Hlen].
    destruct (bad_date_or_time row) eqn:Hb.
    + exists w. simpl.
      by rewrite (bind_Raise _ _ _ _ _ (load_row_bad clock row w Hrow Hb)).
    + apply Exists_cons in Hbad as [Hbad|Hbad]; [congruence|].
      destruct (load_row_valid clock row w (not_bad_valid _ Hrow Hb)) as [ev Hev].
      destruct (IH (List.app acc [ev]) (advance 1 w) Hlen Hbad) as (w' & Hrun & Hfs).
      exists w'. simpl. by rewrite (bind_Ok _ _ _ _ _ Hev).
Qed.

(** [load_events] on a workbook whose sheet has a header row. *)
Lemma load_events_sheet clock filename header rows w :
  fs w !! filename = Some (Xlsx (header :: rows)) ->
  load_events clock filename w = load_rows clock rows [] w.
Proof.
  intros Hf. unfold load_events, load_workbook, mbind, M_bind. by rewrite Hf.
Qed.

(** A successful [load_events] read a sheet with a header row, and its
    events are the events of the data rows, in order. *)
Lemma load_events_Ok_inv clock filename w events w' :
  load_events clock filename w = (Ok events, w') ->
  exists header rows,
    fs w !! filename = Some (Xlsx (header :: rows)) /\
    w' = advance (length rows) w /\
    length events = length rows /\
    forall (i : nat) row, rows !! i = Some row ->
      exists ev, events !! i = Some ev /\
        load_row clock row (advance i w) = (Ok ev, advance (S i) w).
Proof.
  intros H. unfold load_events in H.
  apply bind_Ok_inv in H as (sheet & w1 & Hload & Hrows).
  unfold load_workbook in Hload.
  destruct (fs w !! filename) as [[|sh| |]|] eqn:Hf; try discriminate.
  injection Hload as <- <-.
  destruct sh as [|header rows]; [discriminate|].
  exists header, rows. split; [done|].
  apply load_rows_Ok_inv in Hrows as (-> & new & -> & Hlen & Hnth).
  by repeat split.
Qed.

(* ===================================================================== *)
(** ** Lemmas on the calendar document                                    *)
(* ===================================================================== *)

Lemma fold_add_component events : forall c,
  fold_left (fun cal ev => add_component ev cal) events c
  = MkComponent (c_name c) (c_props c) (List.app (subcomponents c) events).
Proof.
  induction events as [|ev events IH]; intros c; simpl.
  - rewrite app_nil_r. by destruct c.
  - rewrite IH. simpl. by rewrite <- app_assoc.
Qed.

(** The document [export_ics] writes. *)
Lemma to_ical_calendar events :
  to_ical (fold_left (fun cal ev => add_component ev cal) events Calendar)
  = LBegin "VCALENDAR" :: List.app (flat_map property_items events) [LEnd "VCALENDAR"].
Proof. by rewrite fold_add_component. Qed.

(** The lines of one event. *)
Lemma property_items_event stamp title description start_dt end_dt location :
  property_items (event_of stamp title description start_dt end_dt location)
  = [LBegin "VEVENT";
     LProp "SUMMARY" (text_prop title);
     LProp "DTSTART" (vDDDTypes (VDateTime start_dt) false);
     LProp "DTEND" (vDDDTypes (VDateTime end_dt) false);
     LProp "DTSTAMP" (vDDDTypes (VDateTime stamp) true);
     LProp "DESCRIPTION" (text_prop description);
     LProp "LOCATION" (vText location);
     LEnd "VEVENT"].
Proof. reflexivity. Qed.

Lemma count_components_app n doc1 doc2 :
  count_components n (List.app doc1 doc2)
  = (count_components n doc1 + count_components n doc2)%nat.
Proof. unfold count_components. by rewrite List.filter_app, length_app. Qed.

(** A document made of events produced by the loop body holds as many
    VEVENT components as there are events. *)
Lemma count_events clock events :
  Forall (fun ev => exists row w w', load_row clock row w = (Ok ev, w')) events ->
  count_components "VEVENT" (flat_map property_items events) = length events.
Proof.
  induction 1 as [|ev events (row & w & w' & Hev) _ IH]; [done|].
  simpl flat_map. rewrite count_components_app, IH.
  apply load_row_Ok_inv in Hev as (? & ? & ? & ? & ? & ? & ? & ? & ? & _ & _ & _ & _ & _ & ->).
  reflexivity.
Qed.

Lemma export_ics_ok events out w :
  fs w !! out ≠ Some Dir ->
  export_ics events out w
  = (Ok tt,
     set_fs (insert out
               (Ics (LBegin "VCALENDAR" ::
                       List.app (flat_map property_items events) [LEnd "VCALENDAR"])))
       w).
Proof.
  intros Hout. unfold export_ics, write_file. rewrite to_ical_calendar.
  by destruct (fs w !! out) as [[| | |]|].
Qed.

(** The two stages on a valid sheet and a writable output path. *)
Lemma load_and_export_valid clock w filename out header rows :
  fs w !! filename = Some (Xlsx (header :: rows)) ->
  Forall (fun row => valid_row row = true) rows ->
  fs w !! out ≠ Some Dir ->
  exists events,
    load_events clock filename w = (Ok events, advance (length rows) w) /\
    export_ics events out (advance (length rows) w)
    = (Ok tt,
       set_fs (insert out
                 (Ics (LBegin "VCALENDAR" ::
                         List.app (flat_map property_items events) [LEnd "VCALENDAR"])))
         (advance (length rows) w)) /\
    count_components "VEVENT" (flat_map property_items events) = length rows /\
    length events = length rows /\
    forall (i : nat) row, rows !! i = Some row ->
      exists ev, events !! i = Some ev /\
        load_row clock row (advance i w) = (Ok ev, advance (S i) w).
Proof.
  intros Hf Hvalid Hout.
  destruct (load_rows_valid clock rows [] w Hvalid) as [events Hevents].
  rewrite <- (load_events_sheet _ _ _ _ _ Hf) in Hevents.
  exists events. split; [done|].
  split; [by apply export_ics_ok|].
  destruct (load_events_Ok_inv _ _ _ _ _ Hevents) as (h & rs & Hf' & _ & Hlen & Hnth).
  rewrite Hf in Hf'. injection Hf' as <- <-.
  split; [|by split].
  rewrite <- Hlen. apply (count_events clock).
  apply Forall_lookup_2. intros i ev Hi.
  destruct (lookup_lt_is_Some_2 rows i) as [row Hrow].
  { rewrite <- Hlen. by apply lookup_lt_Some in Hi. }
  destruct (Hnth i row Hrow) as (ev' & Hev' & Hrun).
  rewrite Hi in Hev'. injection Hev' as <-. by eauto.
Qed.

(** The event [load_events] returns for the i-th data row. *)
Lemma load_events_nth clock filename w events w' header rows (i : nat)
    c1 c2 c3 c4 c5 c6 :
  load_events clock filename w = (Ok events, w') ->
  fs w !! filename = Some (Xlsx (header :: rows)) ->
  rows !! i = Some [c1; c2; c3; c4; c5; c6] ->
  exists d t1 t2,
    as_date c3 = Some d /\ as_time c4 = Some t1 /\ as_time c5 = Some t2 /\
    events !! i
    = Some (event_of (clock (i + ticks w)%nat) c1 c2
              (DateTime (d_year d) (d_month d) (d_day d)
                 (t_hour t1) (t_minute t1) (t_second t1) (t_microsecond t1))
              (DateTime (d_year d) (d_month d) (d_day d)
                 (t_hour t2) (t_minute t2) (t_second t2) (t_microsecond t2))
              (str c6)).
Proof.
  intros Hload Hf Hrow.
  apply load_events_Ok_inv in Hload as (h & rs & Hf' & _ & _ & Hnth).
  rewrite Hf in Hf'. injection Hf' as <- <-.
  apply Hnth in Hrow as (ev & Hev & Hrun).
  apply load_row_Ok_inv in Hrun
    as (? & ? & ? & ? & ? & ? & d & t1 & t2 & Heq & Hd & H1 & H2 & _ & ->).
  injection Heq as <- <- <- <- <- <-.
  by exists d, t1, t2.
Qed.

(** Two datetimes on one date compare as their times of day. *)
Lemma datetime_ltb_same_date y m d a b :
  datetime_ltb
    (DateTime y m d (t_hour a) (t_minute a) (t_second a) (t_microsecond a))
    (DateTime y m d (t_hour b) (t_minute b) (t_second b) (t_microsecond b))
  = time_ltb a b.
Proof.
  unfold datetime_ltb, time_ltb, datetime_key, time_key. simpl.
  by rewrite !N.ltb_irrefl, !N.eqb_refl.
Qed.

(* ===================================================================== *)
(** ** Properties of the row parser and the serializer                    *)
(* ===================================================================== *)

(** C1. For a workbook with a header row and N valid data rows, and an
    output path that can be written, [load_events] followed by
    [export_ics] succeeds; the document written holds exactly N VEVENT
    components: it is BEGIN:VCALENDAR, the lines of the events in order,
    END:VCALENDAR, and the i-th event is the one the loop body builds from
    the i-th data row. *)
Theorem C1_one_component_per_row clock w filename out header rows :
  fs w !! filename = Some (Xlsx (header :: rows)) ->
  Forall (fun row => valid_row row = true) rows ->
  fs w !! out ≠ Some Dir ->
  exists events w1 w' doc,
    load_events clock filename w = (Ok events, w1) /\
    export_ics events out w1 = (Ok tt, w') /\
    fs w' !! out = Some (Ics doc) /\
    doc = LBegin "VCALENDAR" ::
            List.app (flat_map property_items events) [LEnd "VCALENDAR"] /\
    count_components "VEVENT" doc = length rows /\
    length events = length rows /\
    forall (i : nat) row, rows !! i = Some row ->
      exists ev, events !! i = Some ev /\
        load_row clock row (advance i w) = (Ok ev, advance (S i) w).
Proof.
  intros Hf Hvalid Hout.
  destruct (load_and_export_valid clock w filename out header rows Hf Hvalid Hout)
    as (events & Hload & Hexport & Hcount & Hlen & Hnth).
  eexists events, _, _, _. split; [exact Hload|]. split; [exact Hexport|].
  split; [simpl; by rewrite lookup_insert_eq|]. split; [reflexivity|].
  split; [|by split].
  change (LBegin "VCALENDAR" :: ?l) with (List.app [LBegin "VCALENDAR"] l).
  rewrite !count_components_app, Hcount.
  change (count_components "VEVENT" [LBegin "VCALENDAR"]) with 0%nat.
  change (count_components "VEVENT" [LEnd "VCALENDAR"]) with 0%nat.
  lia.
Qed.

Lemma C1_witness :
  exists events w1 w' doc,
    load_events Sample.clock "/d/in.xlsx" Sample.two_rows = (Ok events, w1) /\
    export_ics events "/d/out.ics" w1 = (Ok tt, w') /\
    fs w' !! "/d/out.ics" = Some (Ics doc) /\
    doc = LBegin "VCALENDAR" ::
            List.app (flat_map property_items events) [LEnd "VCALENDAR"] /\
    count_components "VEVENT" doc = 2%nat /\
    length events = 2%nat /\
    forall (i : nat) row, [Sample.standup; Sample.backwards] !! i = Some row ->
      exists ev, events !! i = Some ev /\
        load_row Sample.clock row (advance i Sample.two_rows)
        = (Ok ev, advance (S i) Sample.two_rows).
Proof.
  apply (C1_one_component_per_row Sample.clock Sample.two_rows
           "/d/in.xlsx" "/d/out.ics" headers [Sample.standup; Sample.backwards]).
  - vm_compute. reflexivity.
  - repeat constructor.
  - vm_compute. discriminate.
Defined.

(** Every event [load_events] returns was built by the loop body. *)
Lemma load_events_all_loaded clock filename w events w' :
  load_events clock filename w = (Ok events, w') ->
  Forall (fun ev => exists row w w', load_row clock row w = (Ok ev, w')) events.
Proof.
  intros Hload.
  apply load_events_Ok_inv in Hload as (header & rows & _ & _ & Hlen & Hnth).
  apply Forall_lookup_2. intros i ev Hi.
  destruct (lookup_lt_is_Some_2 rows i) as [row Hrow].
  { rewrite <- Hlen. by apply lookup_lt_Some in Hi. }
  destruct (Hnth i row Hrow) as (ev' & Hev' & Hrun).
  rewrite Hi in Hev'. injection Hev' as <-. by eauto.
Qed.

(** What a successful [export_ics] has written. *)
Lemma export_ics_Ok_inv events out w w' :
  export_ics events out w = (Ok tt, w') ->
  w' = set_fs (insert out
                 (Ics (LBegin "VCALENDAR" ::
                         List.app (flat_map property_items events)
                           [LEnd "VCALENDAR"]))) w.
Proof.
  unfold export_ics, write_file. rewrite to_ical_calendar. intros H.
  destruct (fs w !! out) as [[| | |]|]; try discriminate; by injection H as <-.
Qed.

(** C2. For every data row of a sheet that [load_events] loads and whose
    events [export_ics] writes, the written document holds the row's
    event as its component of the same rank (the lines of the event, with
    as many VEVENT components before them as there are rows before the
    row), and the text of the title, description and location cell is,
    unchanged, the one value of the SUMMARY, DESCRIPTION and LOCATION
    line of that component, as it is of the event's property. *)
Theorem C2_text_fields_unchanged clock filename out w events w1 w' header rows
    (i : nat) title_cell description_cell date_cell start_time_cell
    end_time_cell location_cell :
  load_events clock filename w = (Ok events, w1) ->
  export_ics events out w1 = (Ok tt, w') ->
  fs w !! filename = Some (Xlsx (header :: rows)) ->
  rows !! i = Some [title_cell; description_cell; date_cell; start_time_cell;
                    end_time_cell; location_cell] ->
  exists ev before after,
    events !! i = Some ev /\
    fs w' !! out
    = Some (Ics (List.app before (List.app (property_items ev) after))) /\
    count_components "VEVENT" before = i /\
    (forall s, title_cell = VStr s ->
       get "summary" ev = Some [vText s] /\
       field "SUMMARY" (property_items ev) = [vText s]) /\
    (forall s, description_cell = VStr s ->
       get "description" ev = Some [vText s] /\
       field "DESCRIPTION" (property_items ev) = [vText s]) /\
    (forall s, location_cell = VStr s ->
       get "location" ev = Some [vText s] /\
       field "LOCATION" (property_items ev) = [vText s]).
Proof.
  intros Hload Hexport Hf Hrow.
  destruct (load_events_nth _ _ _ _ _ _ _ _ _ _ _ _ _ _ Hload Hf Hrow)
    as (d & t1 & t2 & _ & _ & _ & Hev).
  pose proof (load_events_all_loaded _ _ _ _ _ Hload) as Hall.
  apply export_ics_Ok_inv in Hexport as ->.
  eexists _, (LBegin "VCALENDAR" :: flat_map property_items (take i events)),
    (List.app (flat_map property_items (drop (S i) events)) [LEnd "VCALENDAR"]).
  split; [exact Hev|]. split; [|split].
  - simpl. rewrite lookup_insert_eq. do 3 f_equal.
    rewrite <- (take_drop_middle _ _ _ Hev) at 1.
    rewrite flat_map_app. simpl. by rewrite <- !app_assoc.
  - change (LBegin "VCALENDAR" :: ?l) with (List.app [LBegin "VCALENDAR"] l).
    rewrite count_components_app.
    rewrite (count_events clock) by (by apply Forall_take).
    change (count_components "VEVENT" [LBegin "VCALENDAR"]) with 0%nat.
    rewrite length_take. apply lookup_lt_Some in Hev. simpl. lia.
  - rewrite property_items_event.
    split; [|split]; intros s ->; (split; reflexivity).
Qed.

Lemma C2_witness :
  exists ev before after,
    [event_of (Sample.clock 0) (VStr "Standup") (VStr "Daily sync")
       (DateTime 2024 5 1 9 0 0 0) (DateTime 2024 5 1 9 15 0 0) "Room A";
     event_of (Sample.clock 1) (VStr "Retro") (VStr "Looking back")
       (DateTime 2024 5 2 17 0 0 0) (DateTime 2024 5 2 16 30 0 0) "Room B"]
      !! 1%nat = Some ev /\
    fs (set_fs (insert "/d/out.ics"
                  (Ics (to_ical
                          (MkComponent "VCALENDAR" []
                             [event_of (Sample.clock 0) (VStr "Standup")
                                (VStr "Daily sync") (DateTime 2024 5 1 9 0 0 0)
                                (DateTime 2024 5 1 9 15 0 0) "Room A";
                              event_of (Sample.clock 1) (VStr "Retro")
                                (VStr "Looking back") (DateTime 2024 5 2 17 0 0 0)
                                (DateTime 2024 5 2 16 30 0 0) "Room B"]))))
          (advance 2 Sample.two_rows))
      !! "/d/out.ics"
    = Some (Ics (List.app before (List.app (property_items ev) after))) /\
    count_components "VEVENT" before = 1%nat /\
    (forall s, VStr "Retro" = VStr s ->
       get "summary" ev = Some [vText s] /\
       field "SUMMARY" (property_items ev) = [vText s]) /\
    (forall s, VStr "Looking back" = VStr s ->
       get "description" ev = Some [vText s] /\
       field "DESCRIPTION" (property_items ev) = [vText s]) /\
    (forall s, VStr "Room B" = VStr s ->
       get "location" ev = Some [vText s] /\
       field "LOCATION" (property_items ev) = [vText s]).
Proof.
  apply (C2_text_fields_unchanged Sample.clock "/d/in.xlsx" "/d/out.ics"
           Sample.two_rows _ (advance 2 Sample.two_rows) _ headers
           [Sample.standup; Sample.backwards] 1
           _ _ (VDate (Date 2024 5 2))
           (VTime (Time 17 0 0 0)) (VTime (Time 16 30 0 0)) _).
  - vm_compute. reflexivity.
  - vm_compute. reflexivity.
  - vm_compute. reflexivity.
  - reflexivity.
Defined.

(** C3. For every data row of a sheet that [load_events] loads, with a
    date [d] in the date cell and times of day [t1] and [t2] in the
    start-time and end-time cells, DTSTART is the datetime whose date is
    [d] and whose time of day is [t1], DTEND the datetime whose date is
    [d] and whose time of day is [t2]; neither is given a time zone or
    shifted. *)
Theorem C3_start_end_combine clock filename w events w' header rows (i : nat)
    title_cell description_cell date_cell start_time_cell end_time_cell
    location_cell d t1 t2 :
  load_events clock filename w = (Ok events, w') ->
  fs w !! filename = Some (Xlsx (header :: rows)) ->
  rows !! i = Some [title_cell; description_cell; date_cell; start_time_cell;
                    end_time_cell; location_cell] ->
  as_date date_cell = Some d ->
  as_time start_time_cell = Some t1 ->
  as_time end_time_cell = Some t2 ->
  combine date_cell start_time_cell
  = Ok (DateTime (d_year d) (d_month d) (d_day d)
          (t_hour t1) (t_minute t1) (t_second t1) (t_microsecond t1)) /\
  combine date_cell end_time_cell
  = Ok (DateTime (d_year d) (d_month d) (d_day d)
          (t_hour t2) (t_minute t2) (t_second t2) (t_microsecond t2)) /\
  exists ev start_dt end_dt,
    events !! i = Some ev /\
    get "dtstart" ev = Some [vDDDTypes (VDateTime start_dt) false] /\
    get "dtend" ev = Some [vDDDTypes (VDateTime end_dt) false] /\
    date_of start_dt = d /\ time_of start_dt = t1 /\
    date_of end_dt = d /\ time_of end_dt = t2.
Proof.
  intros Hload Hf Hrow Hd H1 H2.
  destruct (load_events_nth _ _ _ _ _ _ _ _ _ _ _ _ _ _ Hload Hf Hrow)
    as (d' & t1' & t2' & Hd' & H1' & H2' & Hev).
  rewrite Hd in Hd'. rewrite H1 in H1'. rewrite H2 in H2'.
  injection Hd' as <-. injection H1' as <-. injection H2' as <-.
  unfold combine. rewrite Hd, H1, H2.
  split; [reflexivity|]. split; [reflexivity|].
  eexists _, _, _. split; [exact Hev|].
  split; [reflexivity|]. split; [reflexivity|].
  by destruct d, t1, t2.
Qed.

Lemma C3_witness :
  combine (VDateTime (DateTime 2024 5 1 0 0 0 0)) (VTime (Time 9 0 0 0))
  = Ok (DateTime 2024 5 1 9 0 0 0) /\
  combine (VDateTime (DateTime 2024 5 1 0 0 0 0)) (VTime (Time 9 15 0 0))
  = Ok (DateTime 2024 5 1 9 15 0 0) /\
  exists ev start_dt end_dt,
    [event_of (Sample.clock 0) (VStr "Standup") (VStr "Daily sync")
       (DateTime 2024 5 1 9 0 0 0) (DateTime 2024 5 1 9 15 0 0) "Room A";
     event_of (Sample.clock 1) (VStr "Retro") (VStr "Looking back")
       (DateTime 2024 5 2 17 0 0 0) (DateTime 2024 5 2 16 30 0 0) "Room B"]
      !! 0%nat = Some ev /\
    get "dtstart" ev = Some [vDDDTypes (VDateTime start_dt) false] /\
    get "dtend" ev = Some [vDDDTypes (VDateTime end_dt) false] /\
    date_of start_dt = Date 2024 5 1 /\ time_of start_dt = Time 9 0 0 0 /\
    date_of end_dt = Date 2024 5 1 /\ time_of end_dt = Time 9 15 0 0.
Proof.
  apply (C3_start_end_combine Sample.clock "/d/in.xlsx" Sample.two_rows
           _ (advance 2 Sample.two_rows) headers
           [Sample.standup; Sample.backwards] 0
           (VStr "Standup") (VStr "Daily sync")
           (VDateTime (DateTime 2024 5 1 0 0 0 0))
           (VTime (Time 9 0 0 0)) (VTime (Time 9 15 0 0)) (VStr "Room A")
           (Date 2024 5 1) (Time 9 0 0 0) (Time 9 15 0 0)).
  - vm_compute. reflexivity.
  - vm_compute. reflexivity.
  - reflexivity.
  - reflexivity.
  - reflexivity.
  - reflexivity.
Defined.

(** C9. No order between start and end is enforced: on a valid sheet and
    a writable output path the two stages succeed, and every row whose
    end time is strictly earlier than its start time has its event in the
    document written, with DTEND before DTSTART. *)
Theorem C9_end_before_start_accepted clock w filename out header rows :
  fs w !! filename = Some (Xlsx (header :: rows)) ->
  Forall (fun row => valid_row row = true) rows ->
  fs w !! out ≠ Some Dir ->
  exists events w1 w',
    load_events clock filename w = (Ok events, w1) /\
    export_ics events out w1 = (Ok tt, w') /\
    fs w' !! out
    = Some (Ics (LBegin "VCALENDAR" ::
                   List.app (flat_map property_items events) [LEnd "VCALENDAR"])) /\
    forall (i : nat) title_cell description_cell date_cell t1 t2 location_cell,
      rows !! i = Some [title_cell; description_cell; date_cell; VTime t1;
                        VTime t2; location_cell] ->
      time_ltb t2 t1 = true ->
      exists ev start_dt end_dt,
        events !! i = Some ev /\
        get "dtstart" ev = Some [vDDDTypes (VDateTime start_dt) false] /\
        get "dtend" ev = Some [vDDDTypes (VDateTime end_dt) false] /\
        datetime_ltb end_dt start_dt = true.
Proof.
  intros Hf Hvalid Hout.
  destruct (load_and_export_valid clock w filename out header rows Hf Hvalid Hout)
    as (events & Hload & Hexport & _ & _ & _).
  eexists events, _, _. split; [exact Hload|]. split; [exact Hexport|].
  split; [simpl; by rewrite lookup_insert_eq|].
  intros i c1 c2 c3 t1 t2 c6 Hrow Hlt.
  destruct (load_events_nth _ _ _ _ _ _ _ _ _ _ _ _ _ _ Hload Hf Hrow)
    as (d & t1' & t2' & _ & H1 & H2 & Hev).
  injection H1 as <-. injection H2 as <-.
  eexists _, _, _. split; [exact Hev|].
  split; [reflexivity|]. split; [reflexivity|].
  by rewrite datetime_ltb_same_date.
Qed.

Lemma C9_witness :
  exists events w1 w',
    load_events Sample.clock "/d/in.xlsx" Sample.two_rows = (Ok events, w1) /\
    export_ics events "/d/out.ics" w1 = (Ok tt, w') /\
    fs w' !! "/d/out.ics"
    = Some (Ics (LBegin "VCALENDAR" ::
                   List.app (flat_map property_items events) [LEnd "VCALENDAR"])) /\
    forall (i : nat) title_cell description_cell date_cell t1 t2 location_cell,
      [Sample.standup; Sample.backwards] !! i
      = Some [title_cell; description_cell; date_cell; VTime t1; VTime t2;
              location_cell] ->
      time_ltb t2 t1 = true ->
      exists ev start_dt end_dt,
        events !! i = Some ev /\
        get "dtstart" ev = Some [vDDDTypes (VDateTime start_dt) false] /\
        get "dtend" ev = Some [vDDDTypes (VDateTime end_dt) false] /\
        datetime_ltb end_dt start_dt = true.
Proof.
  apply (C9_end_before_start_accepted Sample.clock Sample.two_rows
           "/d/in.xlsx" "/d/out.ics" headers [Sample.standup; Sample.backwards]).
  - vm_compute. reflexivity.
  - repeat constructor.
  - vm_compute. discriminate.
Defined.

(** The row that ends before it starts, evaluated: DTEND 16:30 lies
    before DTSTART 17:00 on the same day. *)
Example backwards_event :
  load_row Sample.clock Sample.backwards (Sample.world [])
  = (Ok (event_of (Sample.clock 0) (VStr "Retro") (VStr "Looking back")
           (DateTime 2024 5 2 17 0 0 0) (DateTime 2024 5 2 16 30 0 0) "Room B"),
     advance 1 (Sample.world [])).
Proof. reflexivity. Qed.

(** C10. Every event [load_events] returns has DTSTART and DTEND on the
    same calendar date. *)
Theorem C10_end_on_start_date clock filename w events w' ev :
  load_events clock filename w = (Ok events, w') ->
  In ev events ->
  exists start_dt end_dt,
    get "dtstart" ev = Some [vDDDTypes (VDateTime start_dt) false] /\
    get "dtend" ev = Some [vDDDTypes (VDateTime end_dt) false] /\
    date_of start_dt = date_of end_dt.
Proof.
  intros Hload Hin.
  apply load_events_Ok_inv in Hload as (header & rows & _ & _ & Hlen & Hnth).
  apply list_elem_of_In, list_elem_of_lookup in Hin as [i Hi].
  destruct (lookup_lt_is_Some_2 rows i) as [row Hrow].
  { rewrite <- Hlen. by apply lookup_lt_Some in Hi. }
  destruct (Hnth i row Hrow) as (ev' & Hev' & Hrun).
  rewrite Hi in Hev'. injection Hev' as <-.
  apply load_row_Ok_inv in Hrun
    as (? & ? & ? & ? & ? & ? & d & t1 & t2 & _ & _ & _ & _ & _ & ->).
  eexists _, _. split; [reflexivity|]. split; reflexivity.
Qed.

Lemma C10_witness :
  exists start_dt end_dt,
    get "dtstart"
      (event_of (Sample.clock 1) (VStr "Retro") (VStr "Looking back")
         (DateTime 2024 5 2 17 0 0 0) (DateTime 2024 5 2 16 30 0 0) "Room B")
    = Some [vDDDTypes (VDateTime start_dt) false] /\
    get "dtend"
      (event_of (Sample.clock 1) (VStr "Retro") (VStr "Looking back")
         (DateTime 2024 5 2 17 0 0 0) (DateTime 2024 5 2 16 30 0 0) "Room B")
    = Some [vDDDTypes (VDateTime end_dt) false] /\
    date_of start_dt = date_of end_dt.
Proof.
  apply (C10_end_on_start_date Sample.clock "/d/in.xlsx" Sample.two_rows
           [event_of (Sample.clock 0) (VStr "Standup") (VStr "Daily sync")
              (DateTime 2024 5 1 9 0 0 0) (DateTime 2024 5 1 9 15 0 0) "Room A";
            event_of (Sample.clock 1) (VStr "Retro") (VStr "Looking back")
              (DateTime 2024 5 2 17 0 0 0) (DateTime 2024 5 2 16 30 0 0) "Room B"]
           (advance 2 Sample.two_rows)).
  - vm_compute. reflexivity.
  - simpl. tauto.
Defined.

(** C8, for the date and time cells. On a sheet of six-cell rows, a data row whose date
    cell holds no date, or whose start-time or end-time cell holds no
    time of day (an empty cell holds neither), makes [load_events] raise
    [TypeError]: no event list is returned, and no file is touched. *)
Theorem C8_bad_date_or_time_raises clock w filename header rows :
  fs w !! filename = Some (Xlsx (header :: rows)) ->
  Forall (fun row => length row = 6%nat) rows ->
  Exists (fun row => bad_date_or_time row = true) rows ->
  exists w', load_events clock filename w = (Raise TypeError, w') /\ fs w' = fs w.
Proof.
  intros Hf Hlen Hbad. rewrite (load_events_sheet _ _ _ _ _ Hf).
  by apply load_rows_bad.
Qed.

Lemma C8_witness :
  exists w',
    load_events Sample.clock "/d/in.xlsx"
      (Sample.world [("/d/in.xlsx", Xlsx [headers; Sample.standup; Sample.no_date])])
    = (Raise TypeError, w') /\
    fs w'
    = fs (Sample.world [("/d/in.xlsx", Xlsx [headers; Sample.standup; Sample.no_date])]).
Proof.
  apply (C8_bad_date_or_time_raises Sample.clock _ "/d/in.xlsx" headers
           [Sample.standup; Sample.no_date]).
  - vm_compute. reflexivity.
  - repeat constructor.
  - apply Exists_cons_tl, Exists_cons_hd. reflexivity.
Defined.

(** C8 does not extend to the text cells: a row whose title, description and location
    cells are empty is parsed without error, and its event is returned. *)
Lemma C8_counterexample :
  In VNone Sample.blank_texts /\
  load_events Sample.clock "/d/in.xlsx"
    (Sample.world [("/d/in.xlsx", Xlsx [headers; Sample.blank_texts])])
  = (Ok [event_of (Sample.clock 0) VNone VNone
           (DateTime 2024 5 3 10 0 0 0) (DateTime 2024 5 3 11 0 0 0) "None"],
     advance 1 (Sample.world [("/d/in.xlsx", Xlsx [headers; Sample.blank_texts])])).
Proof. split; [simpl; tauto|]. vm_compute. reflexivity. Qed.

(** C6. [create_calendar_event] leaves LOCATION out when it is handed no
    location. *)
Example create_calendar_event_without_location :
  exists ev w',
    create_calendar_event Sample.clock (VStr "Standup") (VStr "Daily sync")
      (DateTime 2024 5 1 9 0 0 0) (DateTime 2024 5 1 9 15 0 0) VNone
      (Sample.world [])
    = (Ok ev, w') /\
    contains "location" ev = false /\
    forallb (fun k => contains k ev)
      ["summary"; "description"; "dtstart"; "dtend"; "dtstamp"] = true.
Proof. eexists _, _. split; [reflexivity|]. split; reflexivity. Qed.

(** Every event the loop body builds carries the six fields, LOCATION
    included, whatever the location cell holds. *)
Lemma load_row_fields clock row w ev w' :
  load_row clock row w = (Ok ev, w') ->
  forallb (fun k => contains k ev)
    ["summary"; "description"; "dtstart"; "dtend"; "dtstamp"; "location"] = true.
Proof.
  intros H.
  apply load_row_Ok_inv in H
    as (? & ? & ? & ? & ? & ? & ? & ? & ? & _ & _ & _ & _ & _ & ->).
  reflexivity.
Qed.

(** C6, the empty location cell. A row whose location cell is empty gets an event
    with a LOCATION field all the same: [load_events] hands
    [str(None)] to [create_calendar_event], and the document carries the
    line LOCATION:None. *)
Theorem C6_empty_location_written :
  exists ev w',
    nth_error Sample.no_location 5 = Some VNone /\
    load_events Sample.clock "/d/in.xlsx"
      (Sample.world [("/d/in.xlsx", Xlsx [headers; Sample.no_location])])
    = (Ok [ev], w') /\
    get "location" ev = Some [vText "None"] /\
    In (LProp "LOCATION" (vText "None")) (to_ical ev).
Proof.
  eexists _, _. split; [reflexivity|]. split; [vm_compute; reflexivity|].
  split; [reflexivity|]. simpl. tauto.
Qed.

(* ===================================================================== *)
(** ** Properties of the command line                                     *)
(* ===================================================================== *)








(** The run of the witness, evaluated: the rejected output path comes
    first, so the version option behind it is never reached. *)
Example rejected_output_before_version :
  main "/app" Sample.clock Sample.adds_standup
    [Output "/d/a.txt"; Version; File "/d/b.csv"] Sample.two_rows
  = (Raise (SystemExit 2),
     MkWorld (fs Sample.two_rows) 0 []
       ["argument --output/-o: File must be a Calendar file (.ics), but got .txt"]).
Proof. reflexivity. Qed.


(** The same path without the version option before it. *)
Example rejected_file_alone :
  main "/app" Sample.clock Sample.adds_standup [File "/d/week.csv"; Version]
    Sample.two_rows
  = (Raise (SystemExit 2),
     MkWorld (fs Sample.two_rows) 0 []
       ["argument --file/-f: File must be an Excel spreadsheet (.xlsx), but got .csv"]).
Proof. reflexivity. Qed.

(* ===================================================================== *)
(** ** Properties of the template file and the cleanup                    *)
(* ===================================================================== *)

(** The loop body, the loop and [load_events] leave the files alone,
    whether they return or raise. *)
Lemma load_row_fs clock row w r w' :
  load_row clock row w = (r, w') -> fs w' = fs w.
Proof.
  intros H.
  destruct row as [|c1 [|c2 [|c3 [|c4 [|c5 [|c6 [|c7 row]]]]]]];
    try (injection H as <- <-; reflexivity).
  unfold load_row, combine in H.
  destruct (as_date c3), (as_time c4), (as_time c5);
    injection H as <- <-; reflexivity.
Qed.

Lemma load_rows_fs clock rows : forall acc w r w',
  load_rows clock rows acc w = (r, w') -> fs w' = fs w.
Proof.
  induction rows as [|row rows IH]; intros acc w r w' H.
  - by injection H as <- <-.
  - simpl in H. unfold mbind, M_bind in H.
    destruct (load_row clock row w) as [[ev|e] w1] eqn:Hrow.
    + apply IH in H. rewrite H. by apply load_row_fs in Hrow.
    + injection H as <- <-. by apply load_row_fs in Hrow.
Qed.

Lemma load_events_fs clock filename w r w' :
  load_events clock filename w = (r, w') -> fs w' = fs w.
Proof.
  unfold load_events, load_workbook, mbind, M_bind. intros H.
  destruct (fs w !! filename) as [[|[|header rows]| |]|];
    try (injection H as <- <-; reflexivity).
  by apply load_rows_fs in H.
Qed.

(** [export_ics] either writes the document or raises and changes
    nothing. *)
Lemma export_ics_cases events out w r w' :
  export_ics events out w = (r, w') ->
  (r = Ok tt /\ exists doc, w' = set_fs (insert out (Ics doc)) w) \/
  (exists e, r = Raise e /\ w' = w).
Proof.
  unfold export_ics, write_file. intros H.
  destruct (fs w !! out) as [[| | |]|]; injection H as <- <-;
    first [ right; by eexists | left; split; [done|]; by eexists ].
Qed.

(** The cleanup removes the template when it is a file, and does nothing
    when there is none. *)
Lemma delete_temporary_files_file script_dir w n :
  fs w !! in_script_dir script_dir "events.xlsx" = Some n -> n ≠ Dir ->
  delete_temporary_files script_dir w
  = (Ok tt, set_fs (delete (in_script_dir script_dir "events.xlsx")) w).
Proof.
  intros Hn Hdir.
  unfold delete_temporary_files, exists_, unlink, mbind, M_bind.
  rewrite Hn. simpl. rewrite Hn. by destruct n.
Qed.

Lemma delete_temporary_files_absent script_dir w :
  fs w !! in_script_dir script_dir "events.xlsx" = None ->
  delete_temporary_files script_dir w = (Ok tt, w).
Proof.
  intros Hn. unfold delete_temporary_files, exists_, mbind, M_bind.
  by rewrite Hn.
Qed.

(** Running the cleanup a second time changes nothing. *)
Lemma delete_temporary_files_twice script_dir w w' :
  delete_temporary_files script_dir w = (Ok tt, w') ->
  delete_temporary_files script_dir w' = (Ok tt, w').
Proof.
  intros H. apply delete_temporary_files_absent.
  destruct (fs w !! in_script_dir script_dir "events.xlsx") as [n|] eqn:Hn.
  - destruct (decide (n = Dir)) as [->|Hdir].
    + unfold delete_temporary_files, exists_, unlink, mbind, M_bind in H.
      rewrite Hn in H. simpl in H. rewrite Hn in H. discriminate.
    + rewrite (delete_temporary_files_file _ _ _ Hn Hdir) in H.
      injection H as <-. simpl. by rewrite lookup_delete_eq.
  - rewrite (delete_temporary_files_absent _ _ Hn) in H. by injection H as <-.
Qed.

(** [create_event_file] when the template path is free or a file. *)
Lemma create_event_file_ok script_dir user w :
  fs w !! in_script_dir script_dir "events.xlsx" ≠ Some Dir ->
  create_event_file script_dir user w
  = (Ok (in_script_dir script_dir "events.xlsx"),
     MkWorld
       (user (<[in_script_dir script_dir "events.xlsx" := Xlsx [headers]]> (fs w)))
       (ticks w)
       (List.app (launched w)
          [["open"; "-a"; "/Applications/Microsoft Excel.app";
            in_script_dir script_dir "events.xlsx"]])
       (List.app (console w)
          ["Add events to the file, save it and press RETURN to continue..."])).
Proof.
  intros Hdir.
  unfold create_event_file, write_file, mbind, M_bind.
  by destruct (fs w !! in_script_dir script_dir "events.xlsx") as [[| | |]|].
Qed.

(** C5, with the failing runs set apart. In a run without [--file], when
    the template path is not a directory, the template file is created
    with the header row and handed to the user.  When [load_events] and
    [export_ics] then both succeed, [main] succeeds and the template file
    is gone at the end.  When one of them raises, [main] ends with that
    exception in the very world they left: the cleanup is not reached and
    the files are as the user left them. *)
Theorem C5_template_deleted_after_success script_dir clock user argv args w :
  parse_args script_dir argv = Parsed args ->
  file args = None ->
  fs w !! in_script_dir script_dir "events.xlsx" ≠ Some Dir ->
  exists w1,
    create_event_file script_dir user w
    = (Ok (in_script_dir script_dir "events.xlsx"), w1) /\
    fs w1 = user (<[in_script_dir script_dir "events.xlsx" := Xlsx [headers]]> (fs w)) /\
    (forall w2,
       load_and_export clock (in_script_dir script_dir "events.xlsx")
         (output args) w1 = (Ok tt, w2) ->
       exists w',
         main script_dir clock user argv w = (Ok tt, w') /\
         fs w' = delete (in_script_dir script_dir "events.xlsx") (fs w2) /\
         fs w' !! in_script_dir script_dir "events.xlsx" = None) /\
    (forall e w2,
       load_and_export clock (in_script_dir script_dir "events.xlsx")
         (output args) w1 = (Raise e, w2) ->
       main script_dir clock user argv w = (Raise e, w2) /\
       fs w2 = fs w1).
Proof.
  intros Hparse Hfile Hdir.
  pose proof (create_event_file_ok script_dir user w Hdir) as Hcreate.
  eexists. split; [exact Hcreate|]. split; [reflexivity|].
  set (template := in_script_dir script_dir "events.xlsx") in *.
  set (w1 := MkWorld _ _ _ _) in *.
  assert (Hmain : main script_dir clock user argv w
                  = (load_events clock template
                       ≫= (fun events =>
                             export_ics events (output args);;
                             delete_temporary_files script_dir;;
                             call ["open"; "-R"; output args])) w1).
  { unfold main. rewrite Hparse, Hfile.
    unfold mbind at 1, M_bind at 1. by rewrite Hcreate. }
  split.
  - intros w2 Hrun. unfold load_and_export in Hrun.
    apply bind_Ok_inv in Hrun as (events & w1' & Hload & Hexport).
    pose proof (load_events_fs _ _ _ _ _ Hload) as Hfs1.
    destruct (load_events_Ok_inv _ _ _ _ _ Hload) as (header & rows & Hf & _).
    destruct (export_ics_cases _ _ _ _ _ Hexport)
      as [[_ [doc ->]]|[e [He _]]]; [|discriminate].
    assert (Hn : exists n, fs (set_fs (insert (output args) (Ics doc)) w1') !! template
                           = Some n /\ n ≠ Dir).
    { simpl. rewrite Hfs1. destruct (decide (output args = template)) as [->|Hne].
      - rewrite lookup_insert_eq. by eexists.
      - rewrite lookup_insert_ne by done. rewrite Hf. by eexists. }
    destruct Hn as (n & Hn & Hnd).
    eexists. split; [|split].
    + rewrite Hmain, (bind_Ok _ _ _ _ _ Hload), (bind_Ok _ _ _ _ _ Hexport).
      rewrite (bind_Ok _ _ _ _ _ (delete_temporary_files_file _ _ _ Hn Hnd)).
      reflexivity.
    + reflexivity.
    + simpl. by rewrite lookup_delete_eq.
  - intros e w2 Hrun. unfold load_and_export in Hrun.
    rewrite Hmain. unfold mbind, M_bind in Hrun |- *.
    destruct (load_events clock template w1) as [[events|e1] w1'] eqn:Hload.
    + pose proof (load_events_fs _ _ _ _ _ Hload) as Hfs1.
      destruct (export_ics_cases _ _ _ _ _ Hrun)
        as [[He _]|[e' [He ->]]]; [discriminate|].
      rewrite Hrun. by split.
    + injection Hrun as <- <-. split; [done|].
      by apply load_events_fs in Hload.
Qed.

Lemma C5_witness :
  exists w1,
    create_event_file "/app" Sample.adds_standup (Sample.world [])
    = (Ok (in_script_dir "/app" "events.xlsx"), w1) /\
    fs w1
    = Sample.adds_standup
        (<[in_script_dir "/app" "events.xlsx" := Xlsx [headers]]>
           (fs (Sample.world []))) /\
    (forall w2,
       load_and_export Sample.clock (in_script_dir "/app" "events.xlsx")
         (output (MkNamespace false None "/d/out.ics")) w1 = (Ok tt, w2) ->
       exists w',
         main "/app" Sample.clock Sample.adds_standup [Output "/d/out.ics"]
           (Sample.world [])
         = (Ok tt, w') /\
         fs w' = delete (in_script_dir "/app" "events.xlsx") (fs w2) /\
         fs w' !! in_script_dir "/app" "events.xlsx" = None) /\
    (forall e w2,
       load_and_export Sample.clock (in_script_dir "/app" "events.xlsx")
         (output (MkNamespace false None "/d/out.ics")) w1 = (Raise e, w2) ->
       main "/app" Sample.clock Sample.adds_standup [Output "/d/out.ics"]
         (Sample.world [])
       = (Raise e, w2) /\
       fs w2 = fs w1).
Proof.
  apply (C5_template_deleted_after_success "/app" Sample.clock
           Sample.adds_standup [Output "/d/out.ics"]
           (MkNamespace false None "/d/out.ics") (Sample.world [])).
  - reflexivity.
  - reflexivity.
  - vm_compute. discriminate.
Defined.

(** A run without [--file] that succeeds: the template is created, read
    and removed; only the calendar file is left. *)
Example run_without_file :
  exists w',
    main "/app" Sample.clock Sample.adds_standup [Output "/d/out.ics"]
      (Sample.world [])
    = (Ok tt, w') /\
    fs w' !! "/app/events.xlsx" = None /\
    fs w' !! "/d/out.ics"
    = Some (Ics (to_ical
                   (MkComponent "VCALENDAR" []
                      [event_of (Sample.clock 0) (VStr "Standup") (VStr "Daily sync")
                         (DateTime 2024 5 1 9 0 0 0) (DateTime 2024 5 1 9 15 0 0)
                         "Room A"]))).
Proof. eexists. split; [vm_compute; reflexivity|]. split; reflexivity. Qed.

(** C5 does not hold when the export fails: the output path is a
    directory, [export_ics] raises, and the template file is still there
    when the run ends. *)
Lemma C5_counterexample :
  exists w',
    main "/app" Sample.clock Sample.adds_standup [Output "/d/out.ics"]
      (Sample.world [("/d/out.ics", Dir)])
    = (Raise IsADirectoryError, w') /\
    fs w' !! "/app/events.xlsx" = Some (Xlsx [headers; Sample.standup]).
Proof. eexists. split; [vm_compute; reflexivity|]. reflexivity. Qed.

(** C7. The cleanup removes a template file this run did not create: the
    run is given [--file], so no template is made, and the file found at
    the template path before the run is deleted by it. *)
Theorem C7_deletes_file_it_did_not_create :
  let w := Sample.world
             [("/d/in.xlsx", Xlsx [headers; Sample.standup]);
              ("/app/events.xlsx", Xlsx [headers; Sample.backwards])] in
  exists w',
    fs w !! "/app/events.xlsx" = Some (Xlsx [headers; Sample.backwards]) /\
    main "/app" Sample.clock Sample.adds_standup
      [File "/d/in.xlsx"; Output "/d/out.ics"] w
    = (Ok tt, w') /\
    launched w' = [["open"; "-R"; "/d/out.ics"]] /\
    fs w' !! "/app/events.xlsx" = None.
Proof.
  eexists. split; [reflexivity|]. split; [vm_compute; reflexivity|].
  split; reflexivity.
Qed.

(* ===================================================================== *)
(** ** Further properties: the cleanup                                    *)
(* ===================================================================== *)

(** X1. [delete_temporary_files] touches nothing but the template path:
    whatever it returns, every other path holds what it held, and the
    clock, the processes and the terminal are as before; when it returns
    normally the template path is free, and a second call changes
    nothing. *)
Theorem X1_cleanup_touches_only_template script_dir w r w' :
  delete_temporary_files script_dir w = (r, w') ->
  (forall p, p ≠ in_script_dir script_dir "events.xlsx" ->
     fs w' !! p = fs w !! p) /\
  ticks w' = ticks w /\ launched w' = launched w /\ console w' = console w /\
  (r = Ok tt ->
     fs w' !! in_script_dir script_dir "events.xlsx" = None /\
     delete_temporary_files script_dir w' = (Ok tt, w')).
Proof.
  intros H.
  destruct (fs w !! in_script_dir script_dir "events.xlsx") as [n|] eqn:Hn.
  - destruct (decide (n = Dir)) as [->|Hdir].
    + unfold delete_temporary_files, exists_, unlink, mbind, M_bind in H.
      rewrite Hn in H. simpl in H. rewrite Hn in H. injection H as <- <-.
      repeat split; done.
    + pose proof H as H'.
      rewrite (delete_temporary_files_file _ _ _ Hn Hdir) in H.
      injection H as <- <-.
      split; [intros p Hp; simpl; by rewrite lookup_delete_ne|].
      repeat split; try done.
      * simpl. by rewrite lookup_delete_eq.
      * by apply (delete_temporary_files_twice _ w).
  - rewrite (delete_temporary_files_absent _ _ Hn) in H. injection H as <- <-.
    repeat split; try done. by apply delete_temporary_files_absent.
Qed.

Lemma X1_witness :
  let w := Sample.world
             [("/d/in.xlsx", Xlsx [headers; Sample.standup]);
              ("/app/events.xlsx", Xlsx [headers])] in
  let w' := set_fs (delete "/app/events.xlsx") w in
  (forall p, p ≠ in_script_dir "/app" "events.xlsx" -> fs w' !! p = fs w !! p) /\
  ticks w' = ticks w /\ launched w' = launched w /\ console w' = console w /\
  (Ok tt = Ok tt ->
     fs w' !! in_script_dir "/app" "events.xlsx" = None /\
     delete_temporary_files "/app" w' = (Ok tt, w')).
Proof.
  apply (X1_cleanup_touches_only_template "/app"
           (Sample.world
              [("/d/in.xlsx", Xlsx [headers; Sample.standup]);
               ("/app/events.xlsx", Xlsx [headers])])
           (Ok tt)).
  vm_compute. reflexivity.
Defined.

(* ===================================================================== *)
(** ** Further properties: the row parser                                 *)
(* ===================================================================== *)

(** The loop body either returns an event after one reading of the clock
    or raises and leaves the world as it was. *)
Lemma load_row_cases clock row w r w' :
  load_row clock row w = (r, w') ->
  (exists ev, r = Ok ev /\ w' = advance 1 w) \/ (exists e, r = Raise e /\ w' = w).
Proof.
  intros H. destruct r as [ev|e].
  - left. exists ev. split; [done|].
    apply load_row_Ok_inv in H. by destruct H as (? & ? & ? & ? & ? & ? & ? & ? & ? & _ & _ & _ & _ & -> & _).
  - right. exists e. split; [done|].
    destruct row as [|c1 [|c2 [|c3 [|c4 [|c5 [|c6 [|c7 row]]]]]]];
      try (by injection H as _ <-).
    unfold load_row, combine in H.
    destruct (as_date c3), (as_time c4), (as_time c5);
      first [ discriminate | by injection H as _ <- ].
Qed.

(** The loop reads the clock at most once per row and does nothing else
    to the world. *)
Lemma load_rows_advance clock rows : forall acc w r w',
  load_rows clock rows acc w = (r, w') ->
  exists n, (n <= length rows)%nat /\ w' = advance n w.
Proof.
  induction rows as [|row rows IH]; intros acc w r w' H.
  - injection H as <- <-. exists 0%nat. split; [done|]. by rewrite advance_0.
  - simpl in H. unfold mbind, M_bind in H.
    destruct (load_row clock row w) as [[ev|e] w1] eqn:Hrow.
    + destruct (load_row_cases _ _ _ _ _ Hrow) as [(? & _ & ->)|(? & ? & _)];
        [|discriminate].
      apply IH in H as (n & Hn & ->). exists (n + 1)%nat.
      split; [simpl; lia|]. by rewrite advance_advance.
    + destruct (load_row_cases _ _ _ _ _ Hrow) as [(? & ? & _)|(? & _ & ->)];
        [discriminate|].
      injection H as <- <-. exists 0%nat. split; [simpl; lia|].
      by rewrite advance_0.
Qed.

(** The outcome of the loop body depends on the world through the clock
    reading only. *)
Lemma load_row_same_ticks clock row w v :
  ticks w = ticks v ->
  (load_row clock row w).1 = (load_row clock row v).1 /\
  ticks (load_row clock row w).2 = ticks (load_row clock row v).2.
Proof.
  intros Ht.
  destruct row as [|c1 [|c2 [|c3 [|c4 [|c5 [|c6 [|c7 row]]]]]]]; try done.
  destruct (as_date c3) as [d|] eqn:Hd;
    [|unfold load_row, combine; rewrite Hd; done].
  destruct (as_time c4) as [t1|] eqn:H1;
    [|unfold load_row, combine; rewrite Hd, H1; done].
  destruct (as_time c5) as [t2|] eqn:H2;
    [|unfold load_row, combine; rewrite Hd, H1, H2; done].
  rewrite !(load_row_ok _ _ _ _ _ _ _ _ _ _ _ Hd H1 H2). simpl.
  by rewrite Ht.
Qed.

Lemma load_rows_same_ticks clock rows : forall acc w v,
  ticks w = ticks v ->
  (load_rows clock rows acc w).1 = (load_rows clock rows acc v).1.
Proof.
  induction rows as [|row rows IH]; intros acc w v Ht; [done|].
  simpl. unfold mbind, M_bind.
  destruct (load_row_same_ticks clock row w v Ht) as [Hr Hticks].
  destruct (load_row clock row w) as [[ev|e] w1],
           (load_row clock row v) as [[ev'|e'] v1]; simpl in *; try congruence.
  injection Hr as <-. by apply IH.
Qed.

(** X2. The header row is skipped without being looked at: two workbooks
    with the same data rows give the same result (the same events or the
    same exception) whatever the cells of their first rows hold, when
    read at the same clock.  Both sheets are rectangular, as sheets read
    from a file are. *)
Theorem X2_header_not_examined clock w v f g header header' rows :
  fs w !! f = Some (Xlsx (header :: rows)) ->
  fs v !! g = Some (Xlsx (header' :: rows)) ->
  rectangular (header :: rows) ->
  length header' = length header ->
  ticks w = ticks v ->
  (load_events clock f w).1 = (load_events clock g v).1.
Proof.
  intros Hf Hg _ _ Ht.
  rewrite (load_events_sheet _ _ _ _ _ Hf), (load_events_sheet _ _ _ _ _ Hg).
  by apply load_rows_same_ticks.
Qed.

Lemma X2_witness :
  (load_events Sample.clock "/d/in.xlsx" Sample.two_rows).1
  = (load_events Sample.clock "/d/other.xlsx"
       (Sample.world
          [("/d/other.xlsx",
            Xlsx [[VStr "Location"; VNone; VInt 3; VStr "End"; VStr "Start";
                   VStr "Title"];
                  Sample.standup; Sample.backwards])])).1.
Proof.
  apply (X2_header_not_examined Sample.clock Sample.two_rows _
           "/d/in.xlsx" "/d/other.xlsx" headers
           [VStr "Location"; VNone; VInt 3; VStr "End"; VStr "Start"; VStr "Title"]
           [Sample.standup; Sample.backwards]).
  - vm_compute. reflexivity.
  - vm_compute. reflexivity.
  - simpl. repeat constructor.
  - reflexivity.
  - reflexivity.
Defined.

(** X3. A workbook whose sheet has no row at all makes [load_events]
    raise [StopIteration]; a workbook with the header row alone gives the
    empty list of events.  Neither reads the clock or changes the
    world. *)
Theorem X3_empty_sheets clock w filename sheet :
  fs w !! filename = Some (Xlsx sheet) ->
  (length sheet <= 1)%nat ->
  load_events clock filename w
  = (match sheet with [] => Raise StopIteration | _ => Ok [] end, w).
Proof.
  intros Hf Hlen. unfold load_events, load_workbook, mbind, M_bind.
  rewrite Hf. destruct sheet as [|header [|row rows]]; try done.
  simpl in Hlen. lia.
Qed.

Lemma X3_witness :
  load_events Sample.clock "/d/in.xlsx" (Sample.world [("/d/in.xlsx", Xlsx [])])
  = (Raise StopIteration, Sample.world [("/d/in.xlsx", Xlsx [])]).
Proof.
  apply (X3_empty_sheets Sample.clock
           (Sample.world [("/d/in.xlsx", Xlsx [])]) "/d/in.xlsx" []).
  - vm_compute. reflexivity.
  - simpl. lia.
Defined.

Lemma load_rows_first_invalid clock good bad rest : forall acc w,
  Forall (fun row => valid_row row = true) good ->
  valid_row bad = false ->
  load_rows clock (List.app good (bad :: rest)) acc w
  = (Raise (if decide (length bad = 6%nat) then TypeError else ValueError),
     advance (length good) w).
Proof.
  induction good as [|row good IH]; intros acc w Hgood Hbad.
  - rewrite advance_0. simpl. unfold mbind, M_bind.
    destruct (decide (length bad = 6%nat)) as [Hlen|Hlen].
    + assert (Hb : bad_date_or_time bad = true).
      { destruct (bad_date_or_time bad) eqn:Hb; [done|].
        rewrite (not_bad_valid _ Hlen Hb) in Hbad. discriminate. }
      by rewrite (load_row_bad clock bad w Hlen Hb).
    + destruct bad as [|c1 [|c2 [|c3 [|c4 [|c5 [|c6 [|c7 bad]]]]]]]; done.
  - apply Forall_cons in Hgood as [Hrow Hgood].
    destruct (load_row_valid clock row w Hrow) as [ev Hev].
    simpl. rewrite (bind_Ok _ _ _ _ _ Hev).
    rewrite (IH _ (advance 1 w) Hgood Hbad).
    rewrite advance_advance. do 2 f_equal. lia.
Qed.

(** X4. On a rectangular sheet the first row that is not valid decides
    the outcome.  When the rows before it are valid, [load_events] raises
    [TypeError] if the sheet has six columns (the row has a bad date or
    time cell) and [ValueError] if it has not (the row cannot be unpacked
    into six cells; then it is the first data row), after one reading of
    the clock for each row before it; the events built from those rows
    are dropped, and the rows after it are not looked at. *)
Theorem X4_first_invalid_row_decides clock w filename header good bad rest :
  fs w !! filename = Some (Xlsx (header :: List.app good (bad :: rest))) ->
  rectangular (header :: List.app good (bad :: rest)) ->
  Forall (fun row => valid_row row = true) good ->
  valid_row bad = false ->
  load_events clock filename w
  = (Raise (if decide (length header = 6%nat) then TypeError else ValueError),
     advance (length good) w) /\
  (length header ≠ 6%nat -> good = []).
Proof.
  intros Hf Hrect Hgood Hbad. rewrite (load_events_sheet _ _ _ _ _ Hf).
  simpl in Hrect. apply Forall_app in Hrect as [Hwidth Hrest].
  apply Forall_cons in Hrest as [Hlen _].
  split.
  - rewrite (load_rows_first_invalid clock good bad rest [] w Hgood Hbad).
    by rewrite Hlen.
  - intros Hne. destruct good as [|row good]; [done|].
    apply Forall_cons in Hgood as [Hrow _]. apply Forall_cons in Hwidth as [Hw _].
    destruct row as [|c1 [|c2 [|c3 [|c4 [|c5 [|c6 [|c7 row]]]]]]];
      first [ done | simpl in Hw; congruence ].
Qed.

Lemma X4_witness :
  let sheet :=
    List.app headers [VStr "Notes"]
      :: List.app [] (List.app Sample.standup [VNone]
                        :: [List.app Sample.backwards [VStr "bring slides"]]) in
  load_events Sample.clock "/d/in.xlsx" (Sample.world [("/d/in.xlsx", Xlsx sheet)])
  = (Raise (if decide (length (List.app headers [VStr "Notes"]) = 6%nat)
            then TypeError else ValueError),
     advance (length (@nil (list value)))
       (Sample.world [("/d/in.xlsx", Xlsx sheet)])) /\
  (length (List.app headers [VStr "Notes"]) ≠ 6%nat -> @nil (list value) = []).
Proof.
  apply (X4_first_invalid_row_decides Sample.clock _ "/d/in.xlsx"
           (List.app headers [VStr "Notes"]) []
           (List.app Sample.standup [VNone])
           [List.app Sample.backwards [VStr "bring slides"]]).
  - vm_compute. reflexivity.
  - simpl. repeat constructor.
  - constructor.
  - reflexivity.
Defined.

(** X5. [load_events] only reads: whatever it returns, the files, the
    launched processes and the terminal are as before, and the clock has
    been read at most once per row of the sheet. *)
Theorem X5_load_events_only_reads clock filename w r w' :
  load_events clock filename w = (r, w') ->
  fs w' = fs w /\ launched w' = launched w /\ console w' = console w /\
  exists n,
    ticks w' = (n + ticks w)%nat /\
    forall sheet, fs w !! filename = Some (Xlsx sheet) -> (n < max 1 (length sheet))%nat.
Proof.
  unfold load_events, load_workbook, mbind, M_bind. intros H.
  destruct (fs w !! filename) as [[|[|header rows]| |]|];
    try (injection H as <- <-; repeat split; try done;
         exists 0%nat; split; [done|]; intros sheet [= <-]; simpl; lia);
    try (injection H as <- <-; repeat split; try done;
         exists 0%nat; split; [done|]; intros sheet [=]).
  apply load_rows_advance in H as (n & Hn & ->).
  repeat split; try done.
  exists n. split; [done|]. intros sheet [= <-]. simpl. lia.
Qed.

Lemma X5_witness :
  fs (advance 2 Sample.two_rows) = fs Sample.two_rows /\
  launched (advance 2 Sample.two_rows) = launched Sample.two_rows /\
  console (advance 2 Sample.two_rows) = console Sample.two_rows /\
  exists n,
    ticks (advance 2 Sample.two_rows) = (n + ticks Sample.two_rows)%nat /\
    forall sheet, fs Sample.two_rows !! "/d/in.xlsx" = Some (Xlsx sheet) ->
                  (n < max 1 (length sheet))%nat.
Proof.
  apply (X5_load_events_only_reads Sample.clock "/d/in.xlsx" Sample.two_rows
           (Ok [event_of (Sample.clock 0) (VStr "Standup") (VStr "Daily sync")
                  (DateTime 2024 5 1 9 0 0 0) (DateTime 2024 5 1 9 15 0 0) "Room A";
                event_of (Sample.clock 1) (VStr "Retro") (VStr "Looking back")
                  (DateTime 2024 5 2 17 0 0 0) (DateTime 2024 5 2 16 30 0 0) "Room B"])).
  vm_compute. reflexivity.
Defined.

(** X6. The text fields are not validated.  For every data row of a
    sheet that [load_events] loads, LOCATION is [str] of the location
    cell, whatever that cell holds (a number, a date, nothing); SUMMARY
    and DESCRIPTION are [str] of the title and description cell when the
    cell holds text or nothing, so that an empty title gives the summary
    None. *)
Theorem X6_cells_coerced_to_text clock filename w events w' header rows (i : nat)
    c1 c2 c3 c4 c5 c6 :
  load_events clock filename w = (Ok events, w') ->
  fs w !! filename = Some (Xlsx (header :: rows)) ->
  rows !! i = Some [c1; c2; c3; c4; c5; c6] ->
  exists ev,
    events !! i = Some ev /\
    get "location" ev = Some [vText (str c6)] /\
    (textual c1 = true -> get "summary" ev = Some [vText (str c1)]) /\
    (textual c2 = true -> get "description" ev = Some [vText (str c2)]).
Proof.
  intros Hload Hf Hrow.
  destruct (load_events_nth _ _ _ _ _ _ _ _ _ _ _ _ _ _ Hload Hf Hrow)
    as (d & t1 & t2 & _ & _ & _ & Hev).
  eexists. split; [exact Hev|]. split; [reflexivity|].
  split; intros Ht.
  - by destruct c1.
  - by destruct c2.
Qed.

Lemma X6_witness :
  exists ev,
    [event_of (Sample.clock 0) VNone (VStr "Daily sync")
       (DateTime 2024 5 3 10 0 0 0) (DateTime 2024 5 3 11 0 0 0) "42"]
      !! 0%nat = Some ev /\
    get "location" ev = Some [vText (str (VInt 42))] /\
    (textual VNone = true -> get "summary" ev = Some [vText (str VNone)]) /\
    (textual (VStr "Daily sync") = true ->
     get "description" ev = Some [vText (str (VStr "Daily sync"))]).
Proof.
  apply (X6_cells_coerced_to_text Sample.clock "/d/in.xlsx"
           (Sample.world
              [("/d/in.xlsx",
                Xlsx [headers;
                      [VNone; VStr "Daily sync"; VDateTime (DateTime 2024 5 3 0 0 0 0);
                       VTime (Time 10 0 0 0); VTime (Time 11 0 0 0); VInt 42]])])
           _ (advance 1
                (Sample.world
                   [("/d/in.xlsx",
                     Xlsx [headers;
                           [VNone; VStr "Daily sync";
                            VDateTime (DateTime 2024 5 3 0 0 0 0);
                            VTime (Time 10 0 0 0); VTime (Time 11 0 0 0);
                            VInt 42]])]))
           headers
           [[VNone; VStr "Daily sync"; VDateTime (DateTime 2024 5 3 0 0 0 0);
             VTime (Time 10 0 0 0); VTime (Time 11 0 0 0); VInt 42]]
           0 VNone (VStr "Daily sync") (VDateTime (DateTime 2024 5 3 0 0 0 0))
           (VTime (Time 10 0 0 0)) (VTime (Time 11 0 0 0)) (VInt 42)).
  - vm_compute. reflexivity.
  - vm_compute. reflexivity.
  - reflexivity.
Defined.

(** X7. The generation stamps follow the clock: [load_events] reads the
    clock exactly once per event, in row order, so the i-th event's
    DTSTAMP is the i-th reading after the start, marked as UTC. *)
Theorem X7_stamps_follow_clock clock filename w events w' (i : nat) ev :
  load_events clock filename w = (Ok events, w') ->
  events !! i = Some ev ->
  get "dtstamp" ev = Some [vDDDTypes (VDateTime (clock (i + ticks w)%nat)) true] /\
  ticks w' = (length events + ticks w)%nat.
Proof.
  intros Hload Hi.
  apply load_events_Ok_inv in Hload as (header & rows & _ & -> & Hlen & Hnth).
  split; [|simpl; by rewrite Hlen].
  destruct (lookup_lt_is_Some_2 rows i) as [row Hrow].
  { rewrite <- Hlen. by apply lookup_lt_Some in Hi. }
  destruct (Hnth i row Hrow) as (ev' & Hev' & Hrun).
  rewrite Hi in Hev'. injection Hev' as <-.
  apply load_row_Ok_inv in Hrun
    as (? & ? & ? & ? & ? & ? & d & t1 & t2 & _ & _ & _ & _ & _ & ->).
  reflexivity.
Qed.

Lemma X7_witness :
  get "dtstamp"
    (event_of (Sample.clock 1) (VStr "Retro") (VStr "Looking back")
       (DateTime 2024 5 2 17 0 0 0) (DateTime 2024 5 2 16 30 0 0) "Room B")
  = Some [vDDDTypes (VDateTime (Sample.clock (1 + ticks Sample.two_rows)%nat)) true] /\
  ticks (advance 2 Sample.two_rows)
  = (length
       [event_of (Sample.clock 0) (VStr "Standup") (VStr "Daily sync")
          (DateTime 2024 5 1 9 0 0 0) (DateTime 2024 5 1 9 15 0 0) "Room A";
        event_of (Sample.clock 1) (VStr "Retro") (VStr "Looking back")
          (DateTime 2024 5 2 17 0 0 0) (DateTime 2024 5 2 16 30 0 0) "Room B"]
     + ticks Sample.two_rows)%nat.
Proof.
  apply (X7_stamps_follow_clock Sample.clock "/d/in.xlsx" Sample.two_rows
           [event_of (Sample.clock 0) (VStr "Standup") (VStr "Daily sync")
              (DateTime 2024 5 1 9 0 0 0) (DateTime 2024 5 1 9 15 0 0) "Room A";
            event_of (Sample.clock 1) (VStr "Retro") (VStr "Looking back")
              (DateTime 2024 5 2 17 0 0 0) (DateTime 2024 5 2 16 30 0 0) "Room B"]
           (advance 2 Sample.two_rows) 1).
  - vm_compute. reflexivity.
  - reflexivity.
Defined.

(** X8. Every event [load_events] returns is a VEVENT with exactly the
    six properties SUMMARY, DESCRIPTION, DTSTART, DTEND, DTSTAMP and
    LOCATION, one value each, and no subcomponent; in particular it has
    no UID. *)
Theorem X8_event_shape clock filename w events w' ev :
  load_events clock filename w = (Ok events, w') ->
  In ev events ->
  c_name ev = "VEVENT" /\
  map fst (c_props ev)
  = ["SUMMARY"; "DESCRIPTION"; "DTSTART"; "DTEND"; "DTSTAMP"; "LOCATION"] /\
  Forall (fun kv => length kv.2 = 1%nat) (c_props ev) /\
  subcomponents ev = [] /\
  get "uid" ev = None.
Proof.
  intros Hload Hin.
  apply load_events_Ok_inv in Hload as (header & rows & _ & _ & Hlen & Hnth).
  apply list_elem_of_In, list_elem_of_lookup in Hin as [i Hi].
  destruct (lookup_lt_is_Some_2 rows i) as [row Hrow].
  { rewrite <- Hlen. by apply lookup_lt_Some in Hi. }
  destruct (Hnth i row Hrow) as (ev' & Hev' & Hrun).
  rewrite Hi in Hev'. injection Hev' as <-.
  apply load_row_Ok_inv in Hrun
    as (? & ? & ? & ? & ? & ? & d & t1 & t2 & _ & _ & _ & _ & _ & ->).
  repeat split; try reflexivity. simpl. repeat constructor.
Qed.

Lemma X8_witness :
  let ev := event_of (Sample.clock 0) (VStr "Standup") (VStr "Daily sync")
              (DateTime 2024 5 1 9 0 0 0) (DateTime 2024 5 1 9 15 0 0) "Room A" in
  c_name ev = "VEVENT" /\
  map fst (c_props ev)
  = ["SUMMARY"; "DESCRIPTION"; "DTSTART"; "DTEND"; "DTSTAMP"; "LOCATION"] /\
  Forall (fun kv => length kv.2 = 1%nat) (c_props ev) /\
  subcomponents ev = [] /\
  get "uid" ev = None.
Proof.
  apply (X8_event_shape Sample.clock "/d/in.xlsx" Sample.two_rows
           [event_of (Sample.clock 0) (VStr "Standup") (VStr "Daily sync")
              (DateTime 2024 5 1 9 0 0 0) (DateTime 2024 5 1 9 15 0 0) "Room A";
            event_of (Sample.clock 1) (VStr "Retro") (VStr "Looking back")
              (DateTime 2024 5 2 17 0 0 0) (DateTime 2024 5 2 16 30 0 0) "Room B"]
           (advance 2 Sample.two_rows)).
  - vm_compute. reflexivity.
  - simpl. tauto.
Defined.

(* ===================================================================== *)
(** ** Further properties: event construction and export                  *)
(* ===================================================================== *)

(** X9. Called with a title, a description and a location that are
    text or [None], [create_calendar_event] does not fail and reads the
    clock once.  The event has SUMMARY and DESCRIPTION as text, DTSTART
    and DTEND as given, DTSTAMP the clock reading marked as UTC; it has
    LOCATION, the text of the location, exactly when the location is not
    [None]. *)
Theorem X9_location_guard clock title description start_dt end_dt location w :
  textual title = true ->
  textual description = true ->
  textual location = true ->
  exists ev,
    create_calendar_event clock title description start_dt end_dt location w
    = (Ok ev, advance 1 w) /\
    get "summary" ev = Some [vText (str title)] /\
    get "description" ev = Some [vText (str description)] /\
    get "dtstart" ev = Some [vDDDTypes (VDateTime start_dt) false] /\
    get "dtend" ev = Some [vDDDTypes (VDateTime end_dt) false] /\
    get "dtstamp" ev = Some [vDDDTypes (VDateTime (clock (ticks w))) true] /\
    get "location" ev
    = (if decide (location = VNone) then None else Some [vText (str location)]).
Proof.
  intros Ht Hd Hl.
  destruct title; try discriminate; destruct description; try discriminate;
    destruct location; try discriminate;
    eexists; (split; [reflexivity|]); by repeat split.
Qed.

Lemma X9_witness :
  exists ev,
    create_calendar_event Sample.clock (VStr "Standup") VNone
      (DateTime 2024 5 1 9 0 0 0) (DateTime 2024 5 1 9 15 0 0) VNone
      (Sample.world [])
    = (Ok ev, advance 1 (Sample.world [])) /\
    get "summary" ev = Some [vText (str (VStr "Standup"))] /\
    get "description" ev = Some [vText (str VNone)] /\
    get "dtstart" ev = Some [vDDDTypes (VDateTime (DateTime 2024 5 1 9 0 0 0)) false] /\
    get "dtend" ev = Some [vDDDTypes (VDateTime (DateTime 2024 5 1 9 15 0 0)) false] /\
    get "dtstamp" ev
    = Some [vDDDTypes (VDateTime (Sample.clock (ticks (Sample.world [])))) true] /\
    get "location" ev
    = (if decide (VNone = VNone) then None else Some [vText (str VNone)]).
Proof.
  apply (X9_location_guard Sample.clock (VStr "Standup") VNone
           (DateTime 2024 5 1 9 0 0 0) (DateTime 2024 5 1 9 15 0 0) VNone
           (Sample.world [])); reflexivity.
Defined.

(** X10. When [export_ics] returns, the output path holds the document,
    in place of whatever was there: BEGIN:VCALENDAR, the lines of the
    events in the order of the list, END:VCALENDAR, with no property of
    the calendar itself (no VERSION, no PRODID).  No other path has
    changed, the clock has not been read and nothing has been launched. *)
Theorem X10_export_writes_one_file events out w w' :
  export_ics events out w = (Ok tt, w') ->
  fs w' !! out
  = Some (Ics (LBegin "VCALENDAR" ::
                 List.app (flat_map property_items events) [LEnd "VCALENDAR"])) /\
  (forall p, p ≠ out -> fs w' !! p = fs w !! p) /\
  ticks w' = ticks w /\ launched w' = launched w.
Proof.
  intros H. apply export_ics_Ok_inv in H as ->.
  split; [simpl; by rewrite lookup_insert_eq|].
  split; [intros p Hp; simpl; by rewrite lookup_insert_ne|].
  by split.
Qed.

Lemma X10_witness :
  let w := Sample.world [("/d/out.ics", Other); ("/d/in.xlsx", Xlsx [headers])] in
  let w' := set_fs (insert "/d/out.ics"
                      (Ics [LBegin "VCALENDAR"; LEnd "VCALENDAR"])) w in
  fs w' !! "/d/out.ics"
  = Some (Ics (LBegin "VCALENDAR" ::
                 List.app (flat_map property_items []) [LEnd "VCALENDAR"])) /\
  (forall p, p ≠ "/d/out.ics" -> fs w' !! p = fs w !! p) /\
  ticks w' = ticks w /\ launched w' = launched w.
Proof.
  apply (X10_export_writes_one_file [] "/d/out.ics"
           (Sample.world [("/d/out.ics", Other); ("/d/in.xlsx", Xlsx [headers])])).
  vm_compute. reflexivity.
Defined.

(* ===================================================================== *)
(** ** Further properties: paths and the command line                     *)
(* ===================================================================== *)

Lemma split_slash_nonempty s : split_slash s ≠ [].
Proof.
  destruct s as [|c s]; simpl; [done|].
  destruct (Ascii.eqb c "/"); [done|]. by destruct (split_slash s).
Qed.

Lemma split_slash_app a b :
  split_slash (a +:+ String "/" b) = List.app (split_slash a) (split_slash b).
Proof.
  induction a as [|c a IH]; simpl; [done|].
  destruct (Ascii.eqb c "/"); rewrite IH; [done|].
  pose proof (split_slash_nonempty a). by destruct (split_slash a).
Qed.

Lemma split_slash_lacks n : lacks "/" n = true -> split_slash n = [n].
Proof.
  induction n as [|c n IH]; simpl; [done|].
  destruct (Ascii.eqb c "/"); simpl; [done|]. intros H. by rewrite (IH H).
Qed.

Lemma append_slash d n : (d +:+ "/") +:+ n = d +:+ String "/" n.
Proof.
  induction d as [|c d IH]; [done|].
  change (String c ((d +:+ "/") +:+ n) = String c (d +:+ String "/" n)).
  by rewrite IH.
Qed.

(** The name of a path written as a directory part and a last component. *)
Lemma name_join dir n :
  lacks "/" n = true -> n ≠ "" -> n ≠ "." ->
  name (dir_prefix dir +:+ n) = n.
Proof.
  intros Hslash He Hd.
  assert (Hkeep : negb (String.eqb n "") && negb (String.eqb n ".") = true).
  { apply String.eqb_neq in He, Hd. by rewrite He, Hd. }
  unfold name. destruct dir as [d|]; unfold dir_prefix.
  - rewrite append_slash.
    rewrite split_slash_app, (split_slash_lacks _ Hslash), List.filter_app.
    simpl. rewrite Hkeep. apply List.last_last.
  - change ("" +:+ n) with n.
    rewrite (split_slash_lacks _ Hslash). simpl. by rewrite Hkeep.
Qed.

Lemma lacks_app c a b : lacks c (a +:+ b) = lacks c a && lacks c b.
Proof.
  induction a as [|x a IH]; simpl; [done|]. rewrite IH. by destruct (Ascii.eqb x c).
Qed.

Lemma length_app_string a b :
  String.length (a +:+ b) = (String.length a + String.length b)%nat.
Proof. induction a as [|x a IH]; simpl; [done|]. by rewrite IH. Qed.

Lemma rfind_dot_lacks e : lacks "." e = true -> rfind_dot e = None.
Proof.
  induction e as [|c e IH]; simpl; [done|].
  destruct (Ascii.eqb c "."); simpl; [done|]. intros H. by rewrite (IH H).
Qed.

Lemma rfind_dot_app stem e :
  lacks "." e = true ->
  rfind_dot (stem +:+ String "." e) = Some (String.length stem).
Proof.
  intros He. induction stem as [|c stem IH]; simpl.
  - by rewrite (rfind_dot_lacks _ He).
  - by rewrite IH.
Qed.

Lemma substring_all t : String.substring 0 (String.length t) t = t.
Proof. induction t as [|c t IH]; simpl; [done|]. by rewrite IH. Qed.

Lemma substring_skip stem t :
  String.substring (String.length stem) (String.length t) (stem +:+ t) = t.
Proof. induction stem as [|c stem IH]; simpl; [apply substring_all|done]. Qed.

(** The suffix of a path whose last component is a stem, a dot and an
    extension without a dot. *)
Lemma suffix_join dir stem e :
  lacks "/" stem = true -> stem ≠ "" ->
  lacks "/" e = true -> lacks "." e = true -> e ≠ "" ->
  suffix (dir_prefix dir +:+ stem +:+ "." +:+ e) = "." +:+ e.
Proof.
  intros Hs Hne He Hdot Hee.
  change ("." +:+ e) with (String "." e).
  unfold suffix. rewrite name_join.
  - rewrite (rfind_dot_app _ _ Hdot), length_app_string. simpl String.length.
    destruct stem as [|c stem]; [done|]. destruct e as [|x e]; [done|].
    replace (0 <? String.length (String c stem))%nat with true by done.
    replace (String.length (String c stem)
             <? String.length (String c stem) + S (String.length (String x e)) - 1)%nat
      with true.
    2:{ symmetry. apply Nat.ltb_lt. simpl. lia. }
    simpl andb. cbv iota.
    replace (String.length (String c stem) + S (String.length (String x e))
             - String.length (String c stem))%nat
      with (String.length (String "." (String x e))) by (simpl; lia).
    apply substring_skip.
  - rewrite lacks_app. simpl. by rewrite Hs, He.
  - by destruct stem.
  - destruct stem as [|c [|c' stem]]; [done| |done]. by destruct e.
Qed.

Lemma lower_dot e : lower ("." +:+ e) = "." +:+ lower e.
Proof. reflexivity. Qed.

Lemma accept_iff (b : bool) (m p : string) :
  ((exists q, (if negb b then ArgumentTypeError m else Accept p) = Accept q)
   <-> b = true) /\
  ((exists m', (if negb b then @ArgumentTypeError string m else Accept p)
               = ArgumentTypeError m')
   <-> b = false).
Proof.
  destruct b; simpl; split; split; try done;
    first [ intros _; by eexists | by intros [? ?] ].
Qed.

(** X11. Which paths the two [type=] functions accept.  For a path whose
    last component is a stem, a dot and an extension (the extension
    without dot or slash), [xlsx_file] accepts the path exactly when the
    extension is xlsx in any mix of upper and lower case, and rejects it
    with an [ArgumentTypeError] otherwise; [ics_file] does the same for
    ics.  So no path is accepted by both. *)
Theorem X11_extension_decides dir stem e :
  lacks "/" stem = true -> stem ≠ "" ->
  lacks "/" e = true -> lacks "." e = true -> e ≠ "" ->
  let p := dir_prefix dir +:+ stem +:+ "." +:+ e in
  ((exists q, xlsx_file p = Accept q) <-> lower e = "xlsx") /\
  ((exists m, xlsx_file p = ArgumentTypeError m) <-> lower e ≠ "xlsx") /\
  ((exists q, ics_file p = Accept q) <-> lower e = "ics") /\
  ((exists m, ics_file p = ArgumentTypeError m) <-> lower e ≠ "ics").
Proof.
  intros Hs Hne He Hdot Hee p.
  unfold xlsx_file, ics_file. subst p.
  rewrite (suffix_join dir stem e Hs Hne He Hdot Hee), lower_dot.
  change ("." +:+ lower e) with (String "." (lower e)).
  change ".xlsx" with (String "." "xlsx"). change ".ics" with (String "." "ics").
  simpl String.eqb.
  rewrite <- !String.eqb_neq, <- !String.eqb_eq.
  split; [|split; [|split]]; apply accept_iff.
Qed.

Lemma X11_witness :
  let p := dir_prefix (Some "/d") +:+ "Week.2" +:+ "." +:+ "XLSX" in
  ((exists q, xlsx_file p = Accept q) <-> lower "XLSX" = "xlsx") /\
  ((exists m, xlsx_file p = ArgumentTypeError m) <-> lower "XLSX" ≠ "xlsx") /\
  ((exists q, ics_file p = Accept q) <-> lower "XLSX" = "ics") /\
  ((exists m, ics_file p = ArgumentTypeError m) <-> lower "XLSX" ≠ "ics").
Proof.
  apply (X11_extension_decides (Some "/d") "Week.2" "XLSX");
    first [ reflexivity | discriminate ].
Defined.

(** Paths without a usable extension. *)
Example hidden_and_dotless_names_rejected :
  xlsx_file ".xlsx"
  = ArgumentTypeError "File must be an Excel spreadsheet (.xlsx), but got " /\
  xlsx_file "/d/week.xlsx."
  = ArgumentTypeError "File must be an Excel spreadsheet (.xlsx), but got " /\
  xlsx_file "/d/week.xlsx/" = Accept "/d/week.xlsx/" /\
  ics_file "/d.ics/week"
  = ArgumentTypeError "File must be a Calendar file (.ics), but got ".
Proof. repeat split. Qed.

Lemma xlsx_file_Accept s p :
  xlsx_file s = Accept p -> p = s /\ lower (suffix s) = ".xlsx".
Proof.
  unfold xlsx_file. destruct (String.eqb (lower (suffix s)) ".xlsx") eqn:H; [|done].
  intros [= <-]. split; [done|]. by apply String.eqb_eq.
Qed.

Lemma ics_file_Accept s p :
  ics_file s = Accept p -> p = s /\ lower (suffix s) = ".ics".
Proof.
  unfold ics_file. destruct (String.eqb (lower (suffix s)) ".ics") eqn:H; [|done].
  intros [= <-]. split; [done|]. by apply String.eqb_eq.
Qed.

Lemma xlsx_file_accepts s : lower (suffix s) = ".xlsx" -> xlsx_file s = Accept s.
Proof. intros H. unfold xlsx_file. by rewrite H. Qed.

Lemma ics_file_accepts s : lower (suffix s) = ".ics" -> ics_file s = Accept s.
Proof. intros H. unfold ics_file. by rewrite H. Qed.

(** Files in the directory of the script. *)
Lemma suffix_in_script_dir script_dir stem e :
  lacks "/" stem = true -> stem ≠ "" ->
  lacks "/" e = true -> lacks "." e = true -> e ≠ "" ->
  suffix (in_script_dir script_dir (stem +:+ "." +:+ e)) = "." +:+ e.
Proof.
  intros. unfold in_script_dir.
  change (script_dir +:+ "/" +:+ stem +:+ "." +:+ e)
    with (script_dir +:+ String "/" (stem +:+ "." +:+ e)).
  rewrite <- append_slash. by apply (suffix_join (Some script_dir)).
Qed.

Lemma parse_known_args_well_typed argv : forall ns extras ns',
  parse_known_args argv ns extras = Parsed ns' ->
  well_typed ns -> well_typed ns'.
Proof.
  induction argv as [|a argv IH]; intros ns extras ns' H Hns.
  - simpl in H. destruct extras; [|done]. by injection H as <-.
  - destruct a as [| | |s|s|s]; simpl in H; try done.
    + apply IH in H; [done|]. exact Hns.
    + destruct (xlsx_file s) as [p|] eqn:Hs; [|done].
      apply xlsx_file_Accept in Hs as [-> Hs].
      apply IH in H; [done|]. destruct Hns as [Hout _].
      split; [done|]. by intros f [= <-].
    + destruct (ics_file s) as [p|] eqn:Hs; [|done].
      apply ics_file_Accept in Hs as [-> Hs].
      apply IH in H; [done|]. destruct Hns as [_ Hfile].
      by split.
    + by apply IH in H.
Qed.

Lemma parse_args_well_typed script_dir argv args :
  parse_args script_dir argv = Parsed args -> well_typed args.
Proof.
  intros H. apply parse_known_args_well_typed in H; [done|].
  split; [|done]. simpl output.
  assert (Hs : suffix (in_script_dir script_dir "output.ics") = ".ics")
    by (by apply (suffix_in_script_dir script_dir "output" "ics")).
  by rewrite Hs.
Qed.

Lemma template_suffix script_dir :
  lower (suffix (in_script_dir script_dir "events.xlsx")) = ".xlsx".
Proof.
  assert (Hs : suffix (in_script_dir script_dir "events.xlsx") = ".xlsx")
    by (by apply (suffix_in_script_dir script_dir "events" "xlsx")).
  by rewrite Hs.
Qed.

Lemma parsed_paths_differ script_dir argv args :
  parse_args script_dir argv = Parsed args ->
  (forall f, file args = Some f -> f ≠ output args) /\
  output args ≠ in_script_dir script_dir "events.xlsx".
Proof.
  intros H. apply parse_args_well_typed in H as [Hout Hfile]. split.
  - intros f Hf ->. rewrite (Hfile _ Hf) in Hout. discriminate.
  - intros Heq. rewrite Heq, template_suffix in Hout. discriminate.
Qed.

(** X12. The paths [parse_args] returns are of the right kind: the output
    path, given or default, has the suffix [.ics] and the input path, when
    given, has the suffix [.xlsx] (in any letter case).  So the calendar
    is never written over the input workbook or over the template file. *)
Theorem X12_parsed_paths script_dir argv args :
  parse_args script_dir argv = Parsed args ->
  lower (suffix (output args)) = ".ics" /\
  (forall f, file args = Some f -> lower (suffix f) = ".xlsx" /\ f ≠ output args) /\
  output args ≠ in_script_dir script_dir "events.xlsx".
Proof.
  intros H. apply parse_args_well_typed in H as [Hout Hfile].
  split; [done|]. split.
  - intros f Hf. split; [by apply Hfile|]. intros ->.
    rewrite (Hfile _ Hf) in Hout. discriminate.
  - intros Heq. rewrite Heq, template_suffix in Hout. discriminate.
Qed.

Lemma X12_witness :
  let args := MkNamespace true (Some "/d/Week.XLSX") (in_script_dir "/app" "output.ics") in
  lower (suffix (output args)) = ".ics" /\
  (forall f, file args = Some f -> lower (suffix f) = ".xlsx" /\ f ≠ output args) /\
  output args ≠ in_script_dir "/app" "events.xlsx".
Proof.
  apply (X12_parsed_paths "/app" [File "/d/Week.XLSX"; Debug]).
  reflexivity.
Defined.

Lemma parse_known_args_app a b : forall ns extras ns',
  parse_known_args a ns extras = Parsed ns' ->
  parse_known_args (List.app a b) ns extras = parse_known_args b ns' [].
Proof.
  induction a as [|x a IH]; intros ns extras ns' H.
  - simpl in H. destruct extras; [|done]. by injection H as <-.
  - destruct x as [| | |s|s|s]; simpl in H |- *; try done.
    + by apply IH.
    + destruct (xlsx_file s); [by apply IH|done].
    + destruct (ics_file s); [by apply IH|done].
    + by apply IH.
Qed.

(** X13. Options add up from left to right and a later value replaces an
    earlier one: after a command line that parses, one more [--debug]
    sets the debug flag, one more accepted [--file] replaces the input
    path, one more accepted [--output] replaces the output path, and the
    other two fields stay. *)
Theorem X13_later_option_wins script_dir argv args :
  parse_args script_dir argv = Parsed args ->
  parse_args script_dir (List.app argv [Debug])
  = Parsed (MkNamespace true (file args) (output args)) /\
  (forall s, lower (suffix s) = ".xlsx" ->
     parse_args script_dir (List.app argv [File s])
     = Parsed (MkNamespace (debug args) (Some s) (output args))) /\
  (forall s, lower (suffix s) = ".ics" ->
     parse_args script_dir (List.app argv [Output s])
     = Parsed (MkNamespace (debug args) (file args) s)).
Proof.
  intros H. unfold parse_args in *.
  split; [|split].
  - by rewrite (parse_known_args_app _ [Debug] _ _ _ H).
  - intros s Hs. rewrite (parse_known_args_app _ [File s] _ _ _ H). simpl.
    by rewrite (xlsx_file_accepts _ Hs).
  - intros s Hs. rewrite (parse_known_args_app _ [Output s] _ _ _ H). simpl.
    by rewrite (ics_file_accepts _ Hs).
Qed.

Lemma X13_witness :
  let args := MkNamespace false (Some "/d/a.xlsx") "/d/a.ics" in
  parse_args "/app" (List.app [File "/d/a.xlsx"; Output "/d/a.ics"] [Debug])
  = Parsed (MkNamespace true (file args) (output args)) /\
  (forall s, lower (suffix s) = ".xlsx" ->
     parse_args "/app" (List.app [File "/d/a.xlsx"; Output "/d/a.ics"] [File s])
     = Parsed (MkNamespace (debug args) (Some s) (output args))) /\
  (forall s, lower (suffix s) = ".ics" ->
     parse_args "/app" (List.app [File "/d/a.xlsx"; Output "/d/a.ics"] [Output s])
     = Parsed (MkNamespace (debug args) (file args) s)).
Proof.
  apply (X13_later_option_wins "/app" [File "/d/a.xlsx"; Output "/d/a.ics"]).
  reflexivity.
Defined.

(* ===================================================================== *)
(** ** Further properties: whole runs                                     *)
(* ===================================================================== *)

(** [main] once the command line has parsed with an input path. *)
Lemma main_with_file script_dir clock user argv args f w :
  parse_args script_dir argv = Parsed args ->
  file args = Some f ->
  main script_dir clock user argv w
  = (load_events clock f
       ≫= (fun events =>
             export_ics events (output args);;
             delete_temporary_files script_dir;;
             call ["open"; "-R"; output args])) w.
Proof. intros Hparse Hfile. unfold main. by rewrite Hparse, Hfile. Qed.

(** The stages after the loading, from a world in which the output path
    can be written and the template path is no directory. *)
Lemma export_and_cleanup script_dir events out w :
  fs w !! out ≠ Some Dir ->
  out ≠ in_script_dir script_dir "events.xlsx" ->
  fs w !! in_script_dir script_dir "events.xlsx" ≠ Some Dir ->
  (export_ics events out;;
   delete_temporary_files script_dir;;
   call ["open"; "-R"; out]) w
  = (Ok tt,
     MkWorld
       (delete (in_script_dir script_dir "events.xlsx")
          (<[out := Ics (LBegin "VCALENDAR" ::
                           List.app (flat_map property_items events)
                             [LEnd "VCALENDAR"])]> (fs w)))
       (ticks w) (List.app (launched w) [["open"; "-R"; out]]) (console w)).
Proof.
  intros Hout Hne Htemplate.
  rewrite (bind_Ok _ _ _ _ _ (export_ics_ok events out w Hout)).
  set (doc := Ics _). set (w2 := set_fs (insert out doc) w).
  assert (Hlook : fs w2 !! in_script_dir script_dir "events.xlsx"
                  = fs w !! in_script_dir script_dir "events.xlsx").
  { simpl. by rewrite lookup_insert_ne. }
  destruct (fs w !! in_script_dir script_dir "events.xlsx") as [n|] eqn:Hn.
  - assert (Hdir : n ≠ Dir) by congruence.
    by rewrite (bind_Ok _ _ _ _ _ (delete_temporary_files_file _ _ _ Hlook Hdir)).
  - rewrite (bind_Ok _ _ _ _ _ (delete_temporary_files_absent _ _ Hlook)).
    unfold call. simpl. by rewrite (delete_id _ _ Hlook).
Qed.

(** X14. A run with [--file] on a valid workbook.  When the command line
    parses with input path [f], [f] holds a header row and valid data
    rows, the output path can be written and the template path is no
    directory, [main] succeeds.  No template is made and no spreadsheet
    editor is started: the one process launched is the reveal of the
    output file.  The clock is read once per row.  Of the files, the
    output path now holds the calendar of the events, the template path
    is free, and no other path has changed. *)
Theorem X14_run_with_file script_dir clock user argv args f header rows w :
  parse_args script_dir argv = Parsed args ->
  file args = Some f ->
  fs w !! f = Some (Xlsx (header :: rows)) ->
  Forall (fun row => valid_row row = true) rows ->
  fs w !! output args ≠ Some Dir ->
  fs w !! in_script_dir script_dir "events.xlsx" ≠ Some Dir ->
  exists events w',
    load_events clock f w = (Ok events, advance (length rows) w) /\
    main script_dir clock user argv w = (Ok tt, w') /\
    fs w'
    = delete (in_script_dir script_dir "events.xlsx")
        (<[output args := Ics (LBegin "VCALENDAR" ::
                                 List.app (flat_map property_items events)
                                   [LEnd "VCALENDAR"])]> (fs w)) /\
    ticks w' = (length rows + ticks w)%nat /\
    launched w' = List.app (launched w) [["open"; "-R"; output args]].
Proof.
  intros Hparse Hfile Hf Hvalid Hout Htemplate.
  destruct (parsed_paths_differ script_dir argv args Hparse)
    as (Hfiles & Hne).
  destruct (load_and_export_valid clock w f (output args) header rows
              Hf Hvalid Hout) as (events & Hload & _).
  eexists events, _. split; [exact Hload|]. split.
  - rewrite (main_with_file _ _ _ _ _ _ _ Hparse Hfile).
    rewrite (bind_Ok _ _ _ _ _ Hload).
    by apply export_and_cleanup.
  - by repeat split.
Qed.

Lemma X14_witness :
  exists events w',
    load_events Sample.clock "/d/in.xlsx" Sample.two_rows
    = (Ok events, advance (length [Sample.standup; Sample.backwards]) Sample.two_rows) /\
    main "/app" Sample.clock Sample.adds_standup [File "/d/in.xlsx"] Sample.two_rows
    = (Ok tt, w') /\
    fs w'
    = delete (in_script_dir "/app" "events.xlsx")
        (<[output (MkNamespace false (Some "/d/in.xlsx")
                     (in_script_dir "/app" "output.ics"))
           := Ics (LBegin "VCALENDAR" ::
                     List.app (flat_map property_items events)
                       [LEnd "VCALENDAR"])]> (fs Sample.two_rows)) /\
    ticks w'
    = (length [Sample.standup; Sample.backwards] + ticks Sample.two_rows)%nat /\
    launched w'
    = List.app (launched Sample.two_rows)
        [["open"; "-R";
          output (MkNamespace false (Some "/d/in.xlsx")
                    (in_script_dir "/app" "output.ics"))]].
Proof.
  apply (X14_run_with_file "/app" Sample.clock Sample.adds_standup
           [File "/d/in.xlsx"]
           (MkNamespace false (Some "/d/in.xlsx") (in_script_dir "/app" "output.ics"))
           "/d/in.xlsx" headers [Sample.standup; Sample.backwards] Sample.two_rows).
  - reflexivity.
  - reflexivity.
  - vm_compute. reflexivity.
  - repeat constructor.
  - vm_compute. discriminate.
  - vm_compute. discriminate.
Defined.

(** Whatever [load_events] returns, the world it leaves differs from the
    one it found by readings of the clock only. *)
Lemma load_events_world clock filename w r w' :
  load_events clock filename w = (r, w') -> exists n, w' = advance n w.
Proof.
  unfold load_events, load_workbook, mbind, M_bind. intros H.
  destruct (fs w !! filename) as [[|[|header rows]| |]|];
    try (injection H as <- <-; exists 0%nat; by rewrite advance_0).
  apply load_rows_advance in H as (n & _ & ->). by exists n.
Qed.

(** X15. No partial output.  In a run with [--file], when [load_events]
    raises (the file is missing or no workbook, the sheet is empty, a row
    is not valid), [main] ends with that exception: no calendar file is
    written, not even for the rows before the failing one, no file is
    removed and nothing is launched. *)
Theorem X15_failed_load_writes_nothing script_dir clock user argv args f e w w1 :
  parse_args script_dir argv = Parsed args ->
  file args = Some f ->
  load_events clock f w = (Raise e, w1) ->
  main script_dir clock user argv w = (Raise e, w1) /\
  fs w1 = fs w /\ launched w1 = launched w.
Proof.
  intros Hparse Hfile Hload.
  rewrite (main_with_file _ _ _ _ _ _ _ Hparse Hfile).
  rewrite (bind_Raise _ _ _ _ _ Hload). split; [done|].
  apply load_events_world in Hload as [n ->]. by split.
Qed.

Lemma X15_witness :
  let w := Sample.world
             [("/d/in.xlsx", Xlsx [headers; Sample.standup; Sample.no_date])] in
  main "/app" Sample.clock Sample.adds_standup
    [File "/d/in.xlsx"; Output "/d/out.ics"] w
  = (Raise TypeError, advance 1 w) /\
  fs (advance 1 w) = fs w /\ launched (advance 1 w) = launched w.
Proof.
  apply (X15_failed_load_writes_nothing "/app" Sample.clock Sample.adds_standup
           [File "/d/in.xlsx"; Output "/d/out.ics"]
           (MkNamespace false (Some "/d/in.xlsx") "/d/out.ics") "/d/in.xlsx"
           TypeError
           (Sample.world
              [("/d/in.xlsx", Xlsx [headers; Sample.standup; Sample.no_date])])).
  - reflexivity.
  - reflexivity.
  - vm_compute. reflexivity.
Defined.

(** X16. A run without [--file].  When the template path is no directory,
    the user leaves at the template path a workbook with a header row and
    valid data rows, and the output path can then be written, [main]
    succeeds.  The header-only template is written before the user is
    prompted, replacing whatever was at the template path.  Two processes
    are launched, the spreadsheet editor on the template first and the
    reveal of the output file last; the clock is read once per row.  At
    the end the output path holds the calendar of the user's rows and the
    template path is free; every other path is as the user left it. *)
Theorem X16_run_without_file script_dir clock user argv args header rows w :
  parse_args script_dir argv = Parsed args ->
  file args = None ->
  fs w !! in_script_dir script_dir "events.xlsx" ≠ Some Dir ->
  user (<[in_script_dir script_dir "events.xlsx" := Xlsx [headers]]> (fs w))
    !! in_script_dir script_dir "events.xlsx"
  = Some (Xlsx (header :: rows)) ->
  Forall (fun row => valid_row row = true) rows ->
  user (<[in_script_dir script_dir "events.xlsx" := Xlsx [headers]]> (fs w))
    !! output args ≠ Some Dir ->
  exists events w1 w',
    create_event_file script_dir user w
    = (Ok (in_script_dir script_dir "events.xlsx"), w1) /\
    load_events clock (in_script_dir script_dir "events.xlsx") w1
    = (Ok events, advance (length rows) w1) /\
    main script_dir clock user argv w = (Ok tt, w') /\
    fs w'
    = delete (in_script_dir script_dir "events.xlsx")
        (<[output args := Ics (LBegin "VCALENDAR" ::
                                 List.app (flat_map property_items events)
                                   [LEnd "VCALENDAR"])]>
           (user (<[in_script_dir script_dir "events.xlsx" := Xlsx [headers]]>
                    (fs w)))) /\
    ticks w' = (length rows + ticks w)%nat /\
    launched w'
    = List.app (launched w)
        [["open"; "-a"; "/Applications/Microsoft Excel.app";
          in_script_dir script_dir "events.xlsx"];
         ["open"; "-R"; output args]].
Proof.
  intros Hparse Hfile Hdir Hsheet Hvalid Hout.
  pose proof (create_event_file_ok script_dir user w Hdir) as Hcreate.
  destruct (parsed_paths_differ script_dir argv args Hparse) as (_ & Hne).
  set (template := in_script_dir script_dir "events.xlsx") in *.
  set (w1 := MkWorld _ _ _ _) in Hcreate.
  destruct (load_and_export_valid clock w1 template (output args) header rows
              Hsheet Hvalid Hout) as (events & Hload & _).
  assert (Htemplate : fs w1 !! template ≠ Some Dir).
  { change (fs w1) with (user (<[template := Xlsx [headers]]> (fs w))).
    rewrite Hsheet. discriminate. }
  exists events, w1. eexists. split; [exact Hcreate|]. split; [exact Hload|].
  split.
  - unfold main. rewrite Hparse, Hfile.
    rewrite (bind_Ok _ _ _ _ _ Hcreate), (bind_Ok _ _ _ _ _ Hload).
    by apply export_and_cleanup.
  - simpl. repeat split; try done. by rewrite <- app_assoc.
Qed.

Lemma X16_witness :
  exists events w1 w',
    create_event_file "/app" Sample.adds_standup (Sample.world [])
    = (Ok (in_script_dir "/app" "events.xlsx"), w1) /\
    load_events Sample.clock (in_script_dir "/app" "events.xlsx") w1
    = (Ok events, advance (length [Sample.standup]) w1) /\
    main "/app" Sample.clock Sample.adds_standup [Output "/d/out.ics"]
      (Sample.world [])
    = (Ok tt, w') /\
    fs w'
    = delete (in_script_dir "/app" "events.xlsx")
        (<[output (MkNamespace false None "/d/out.ics")
           := Ics (LBegin "VCALENDAR" ::
                     List.app (flat_map property_items events)
                       [LEnd "VCALENDAR"])]>
           (Sample.adds_standup
              (<[in_script_dir "/app" "events.xlsx" := Xlsx [headers]]>
                 (fs (Sample.world []))))) /\
    ticks w' = (length [Sample.standup] + ticks (Sample.world []))%nat /\
    launched w'
    = List.app (launched (Sample.world []))
        [["open"; "-a"; "/Applications/Microsoft Excel.app";
          in_script_dir "/app" "events.xlsx"];
         ["open"; "-R"; output (MkNamespace false None "/d/out.ics")]].
Proof.
  apply (X16_run_without_file "/app" Sample.clock Sample.adds_standup
           [Output "/d/out.ics"] (MkNamespace false None "/d/out.ics")
           headers [Sample.standup] (Sample.world [])).
  - reflexivity.
  - reflexivity.
  - vm_compute. discriminate.
  - vm_compute. reflexivity.
  - repeat constructor.
  - vm_compute. discriminate.
Defined.

(** X17. When the user saves the template as it was handed over, the run
    writes a calendar without any event, BEGIN:VCALENDAR directly
    followed by END:VCALENDAR, and never reads the clock. *)
Theorem X17_untouched_template_gives_empty_calendar
    script_dir clock user argv args w :
  parse_args script_dir argv = Parsed args ->
  file args = None ->
  fs w !! in_script_dir script_dir "events.xlsx" ≠ Some Dir ->
  user (<[in_script_dir script_dir "events.xlsx" := Xlsx [headers]]> (fs w))
    !! in_script_dir script_dir "events.xlsx"
  = Some (Xlsx [headers]) ->
  user (<[in_script_dir script_dir "events.xlsx" := Xlsx [headers]]> (fs w))
    !! output args ≠ Some Dir ->
  exists w',
    main script_dir clock user argv w = (Ok tt, w') /\
    fs w' !! output args = Some (Ics [LBegin "VCALENDAR"; LEnd "VCALENDAR"]) /\
    fs w' !! in_script_dir script_dir "events.xlsx" = None /\
    ticks w' = ticks w.
Proof.
  intros Hparse Hfile Hdir Hsheet Hout.
  pose proof (create_event_file_ok script_dir user w Hdir) as Hcreate.
  destruct (parsed_paths_differ script_dir argv args Hparse) as (_ & Hne).
  set (template := in_script_dir script_dir "events.xlsx") in *.
  set (w1 := MkWorld _ _ _ _) in Hcreate.
  assert (Hload : load_events clock template w1 = (Ok [], w1)).
  { unfold load_events, load_workbook, mbind, M_bind.
    change (fs w1) with (user (<[template := Xlsx [headers]]> (fs w))).
    by rewrite Hsheet. }
  assert (Htemplate : fs w1 !! template ≠ Some Dir).
  { change (fs w1) with (user (<[template := Xlsx [headers]]> (fs w))).
    rewrite Hsheet. discriminate. }
  eexists. split.
  - unfold main. rewrite Hparse, Hfile.
    rewrite (bind_Ok _ _ _ _ _ Hcreate), (bind_Ok _ _ _ _ _ Hload).
    by apply export_and_cleanup.
  - simpl. split; [|split; [|done]].
    + rewrite lookup_delete_ne by done. by rewrite lookup_insert_eq.
    + by rewrite lookup_delete_eq.
Qed.

Lemma X17_witness :
  exists w',
    main "/app" Sample.clock (fun files => files) [Debug] (Sample.world [])
    = (Ok tt, w') /\
    fs w' !! output (MkNamespace true None (in_script_dir "/app" "output.ics"))
    = Some (Ics [LBegin "VCALENDAR"; LEnd "VCALENDAR"]) /\
    fs w' !! in_script_dir "/app" "events.xlsx" = None /\
    ticks w' = ticks (Sample.world []).
Proof.
  apply (X17_untouched_template_gives_empty_calendar "/app" Sample.clock
           (fun files => files) [Debug]
           (MkNamespace true None (in_script_dir "/app" "output.ics"))
           (Sample.world [])).
  - reflexivity.
  - reflexivity.
  - vm_compute. discriminate.
  - vm_compute. reflexivity.
  - vm_compute. discriminate.
Defined.
